(** * FlowDirectorSteepestDescent: steepest-descent flow routing on Voronoi grids

    A shallow embedding of
    [landlab/components/flow_director/flow_director_steepestdescent.py].

    The component is glue between a grid object, numpy and a flow-direction
    routine.  The embedding keeps that shape:

    - numpy arrays are a dtype tag and a list of elements; float64 elements
      are Rocq's primitive binary64 floats;
    - the grid's node fields are names bound to array objects: a dictionary
      from field name to location and a heap from location to array, so that
      writing in place ([a[:] = b]) and rebinding a name are different things
      and [self.elevs] can alias a field of the grid;
    - [run_one_step] runs in a monad with the state (component, grid, heap),
      Python exceptions and the trace of the calls made to collaborators;
    - what the module imports from the rest of landlab (the base class
      constructor, [updated_boundary_conditions], the grid's
      [calc_grad_of_active_link] and [status_at_node],
      [flow_direction_DN.flow_directions] and the two boundary status codes)
      is the interface [Landlab], over which the theorems quantify. *)

From Stdlib Require Import ZArith Floats List Bool Lia.
From stdpp Require Import base option list gmap strings.

Local Open Scope string_scope.
Local Open Scope Z_scope.

(** ** numpy arrays *)

Inductive dtype := dt_bool | dt_int8 | dt_int | dt_float.

Inductive value :=
| VBool (b : bool)
| VInt (z : Z)
| VFloat (x : float).

Record ndarray := mk_array { arr_dtype : dtype; arr_data : list value }.

Definition int_array (l : list Z) : ndarray := mk_array dt_int (VInt <$> l).
Definition float_array (l : list float) : ndarray := mk_array dt_float (VFloat <$> l).
Definition bool_array (l : list bool) : ndarray := mk_array dt_bool (VBool <$> l).

(** Python truth value of an array element ([bool(x)]): non-zero; a NaN is
    true. *)
Definition truthy (v : value) : bool :=
  match v with
  | VBool b => b
  | VInt z => negb (z =? 0)
  | VFloat x => negb (PrimFloat.eqb x 0%float)
  end.

(** [x >= 0] on an array element. *)
Definition non_negative (v : value) : bool :=
  match v with
  | VBool _ => true
  | VInt z => 0 <=? z
  | VFloat x => PrimFloat.leb 0%float x
  end.

(** Two's complement wrap-around of a [w]-bit signed integer. *)
Definition wrap_signed (w : Z) (z : Z) : Z :=
  (z + 2 ^ (w - 1)) mod 2 ^ w - 2 ^ (w - 1).

(** Integer to binary64, rounding to nearest even. *)
Definition float_of_Z (z : Z) : float :=
  SF2Prim (binary_normalize prec emax z 0 false).

(** binary64 to integer, truncating toward zero.  C leaves the conversion of
    a NaN or an infinity undefined; x86-64 yields the least int64. *)
Definition Z_of_float (x : float) : Z :=
  match Prim2SF x with
  | S754_zero _ => 0
  | S754_finite s m e =>
      let mag := Z.shiftl (Z.pos m) e in if s then - mag else mag
  | S754_infinity _ | S754_nan => - 2 ^ 63
  end.

(** Element conversion to the dtype of the array written to, as numpy does
    on assignment (casting ['unsafe']).  int64 elements are kept in range by
    the arrays they come from, so int to int is a copy. *)
Definition astype (d : dtype) (v : value) : value :=
  match d, v with
  | dt_bool, _ => VBool (truthy v)
  | dt_int8, VBool b => VInt (Z.b2z b)
  | dt_int8, VInt z => VInt (wrap_signed 8 z)
  | dt_int8, VFloat x => VInt (wrap_signed 8 (Z_of_float x))
  | dt_int, VBool b => VInt (Z.b2z b)
  | dt_int, VInt z => VInt z
  | dt_int, VFloat x => VInt (wrap_signed 64 (Z_of_float x))
  | dt_float, VBool b => VFloat (if b then 1%float else 0%float)
  | dt_float, VInt z => VFloat (float_of_Z z)
  | dt_float, VFloat x => VFloat x
  end.

(** ** Exceptions and outcomes *)

Inductive exn :=
| NotImplementedError (msg : string)
| KeyError (key : string)
| ValueError (msg : string)
| IndexError (msg : string)
| SystemError (msg : string)
| Exception (cls msg : string).

Inductive result (A : Type) :=
| Ok (a : A)
| Raise (e : exn).
Arguments Ok {A} a.
Arguments Raise {A} e.

(** [numpy] shape rule for [dst[:] = src] on one-dimensional arrays: the
    source has the destination's length, or length one and is repeated. *)
Definition broadcast_to {A} (n : nat) (src : list A) : result (list A) :=
  if decide (length src = n) then Ok src
  else match src with
       | [x] => Ok (replicate n x)
       | _ => Raise (ValueError "could not broadcast input array")
       end.

(** [dst[:] = src]: the destination keeps its dtype and its length; the
    elements of the source are converted. *)
Definition np_slice_assign (dst src : ndarray) : result ndarray :=
  match broadcast_to (length (arr_data dst)) (arr_data src) with
  | Ok l => Ok (mk_array (arr_dtype dst) (astype (arr_dtype dst) <$> l))
  | Raise e => Raise e
  end.

(** Position denoted by an index into an axis of length [n]: negative
    indices count from the end. *)
Definition np_index (n : nat) (i : Z) : option nat :=
  if decide (0 <= i < Z.of_nat n) then Some (Z.to_nat i)
  else if decide (- Z.of_nat n <= i < 0) then Some (Z.to_nat (i + Z.of_nat n))
  else None.

(** [dst[idx] = v] for an integer index array [idx] and a scalar [v]: all
    indices are checked first, then every denoted position is written. *)
Definition np_index_assign (dst : ndarray) (idx : list Z) (v : value) : result ndarray :=
  match mapM (np_index (length (arr_data dst))) idx with
  | Some ps =>
      Ok (mk_array (arr_dtype dst)
            (foldl (fun l p => <[p := astype (arr_dtype dst) v]> l) (arr_data dst) ps))
  | None => Raise (IndexError "index out of bounds")
  end.

(** [numpy.zeros_like(a, dtype=bool)]. *)
Definition np_zeros_like_bool {A} (a : list A) : ndarray :=
  bool_array (replicate (length a) false).

(** [a == c] element by element. *)
Definition np_equal (a : list Z) (c : Z) : list bool := (fun s => s =? c) <$> a.

(** [numpy.logical_or(a, b)]. *)
Definition np_logical_or (a b : list bool) : result (list bool) :=
  if decide (length a = length b) then Ok (zip_with orb a b)
  else match a, b with
       | [x], _ => Ok (orb x <$> b)
       | _, [y] => Ok ((fun x => orb x y) <$> a)
       | _, _ => Raise (ValueError "operands could not be broadcast together")
       end.

(** [numpy.where(c)[0]]: the indices of the true entries, ascending. *)
Fixpoint where_from (i : Z) (c : list bool) : list Z :=
  match c with
  | [] => []
  | b :: c' => if b then i :: where_from (i + 1) c' else where_from (i + 1) c'
  end.
Definition np_where (c : list bool) : list Z := where_from 0 c.

(** ** The grid, the component and the object store *)

Definition loc := positive.

(** A grid object, as far as this module reads it: its class (the method
    resolution order of [type(grid)], most derived class first), the counter
    of boundary-condition changes, and the node fields, each name bound to
    an array object. *)
Record ModelGrid := mk_grid {
  grid_mro : list string;
  bc_set_code : Z;
  at_node : gmap string loc
}.

(** The attributes of a [FlowDirectorSteepestDescent] object that this module
    reads or writes.  [self._grid] is the grid of the state below; [sink]
    does not exist before the first run. *)
Record Component := mk_component {
  _is_Voroni : bool;
  method : option string;
  _bc_set_code : Z;
  elevs : loc;
  _active_links : list Z;
  _activelink_tail : list Z;
  _activelink_head : list Z;
  sink : option (list Z)
}.

Definition set_is_Voroni (b : bool) (c : Component) : Component :=
  mk_component b (method c) (_bc_set_code c) (elevs c) (_active_links c)
    (_activelink_tail c) (_activelink_head c) (sink c).
Definition set_method (m : string) (c : Component) : Component :=
  mk_component (_is_Voroni c) (Some m) (_bc_set_code c) (elevs c) (_active_links c)
    (_activelink_tail c) (_activelink_head c) (sink c).
Definition set_bc_set_code (code : Z) (c : Component) : Component :=
  mk_component (_is_Voroni c) (method c) code (elevs c) (_active_links c)
    (_activelink_tail c) (_activelink_head c) (sink c).
Definition set_sink (s : list Z) (c : Component) : Component :=
  mk_component (_is_Voroni c) (method c) (_bc_set_code c) (elevs c) (_active_links c)
    (_activelink_tail c) (_activelink_head c) (Some s).

(** What exists before and besides the component: the grid and the arrays. *)
#[projections(primitive=yes)]
Record World := mk_world {
  grid : ModelGrid;
  heap : gmap loc ndarray
}.

#[projections(primitive=yes)]
Record State := mk_state {
  self : Component;
  world : World
}.

(** The [surface] argument of the constructor: "field name at node or array
    of length node". *)
Inductive Surface :=
| field_name (name : string)
| node_array (a : loc).

(** The calls this module makes into the rest of landlab. *)
Inductive call :=
| call_super_init (surface : Surface)
| call_updated_boundary_conditions
| call_calc_grad_of_active_link (elevs : ndarray)
| get_status_at_node
| call_flow_directions (elevs : ndarray) (active_links tail_node head_node : list Z)
    (link_slope : list float) (baselevel_nodes : list Z).

(** ** The imported names

    None of these is defined in this module.  Each collaborator is a function
    of what it is passed (a grid argument gives it the grid and its arrays);
    it returns or raises.  Collaborators do not write node fields. *)
Class Landlab := {
  FIXED_VALUE_BOUNDARY : Z;
  FIXED_GRADIENT_BOUNDARY : Z;
  (** [FlowDirectorToOne.__init__(self, grid, surface)]: sets the attributes
      of the base class; it may bind new node fields and allocate arrays,
      which stay when it raises.  The grid object keeps its class and its
      boundary conditions. *)
  FlowDirectorToOne_init :
    Surface -> World -> result Component * (gmap string loc * gmap loc ndarray);
  (** [self.updated_boundary_conditions()]. *)
  updated_boundary_conditions : Component -> World -> result Component;
  (** [grid.calc_grad_of_active_link(values)]. *)
  calc_grad_of_active_link : World -> ndarray -> result (list float);
  (** [grid.status_at_node]. *)
  status_at_node : World -> result (list Z);
  (** [flow_direction_DN.flow_directions(elev, active_links, tail_node,
      head_node, link_slope, grid=, baselevel_nodes=)], which returns
      [(receiver, steepest_slope, sink, receiver_link)]. *)
  flow_directions :
    ndarray -> list Z -> list Z -> list Z -> list float -> World -> list Z ->
    result (list Z * list float * list Z * list Z)
}.

(** ** State, exceptions and the trace of calls *)

#[projections(primitive=yes)]
Record outcome (S A : Type) := mk_outcome {
  res : result A;
  final : S;
  trace : list call
}.
Arguments mk_outcome {S A} res final trace.
Arguments res {S A} o.
Arguments final {S A} o.
Arguments trace {S A} o.

(** A computation from a state: its result or the exception it raises, the
    state it leaves (also when it raises) and the calls it made, in order. *)
Definition M (S A : Type) : Type := S -> outcome S A.

#[global] Instance M_ret {S} : MRet (M S) :=
  fun A a s => mk_outcome (Ok a) s [].
#[global] Instance M_bind {S} : MBind (M S) :=
  fun A B k m s =>
    match res (m s) with
    | Ok a =>
        let o := k a (final (m s)) in
        mk_outcome (res o) (final o) (trace (m s) ++ trace o)
    | Raise e => mk_outcome (Raise e) (final (m s)) (trace (m s))
    end.

Definition raise {S A} (e : exn) : M S A := fun s => mk_outcome (Raise e) s [].
Definition get {S} : M S S := fun s => mk_outcome (Ok s) s [].
Definition emit {S} (c : call) : M S unit := fun s => mk_outcome (Ok tt) s [c].
Definition lift {S A} (r : result A) : M S A :=
  match r with Ok a => mret a | Raise e => raise e end.

Definition set_self (c : Component) : M State unit :=
  fun s => mk_outcome (Ok tt) (mk_state c (world s)) [].

(** The array a reference points to.  Python has no dangling reference; a
    location outside the heap is reported as an interpreter error. *)
Definition deref (l : loc) : M State ndarray :=
  s ← get;
  match heap (world s) !! l with
  | Some a => mret a
  | None => raise (SystemError "dangling reference")
  end.

(** Overwrites the contents of an array object; the object stays where it
    is. *)
Definition written (l : loc) (a : ndarray) (s : State) : State :=
  mk_state (self s) (mk_world (grid (world s)) (<[l := a]> (heap (world s)))).
Definition store (l : loc) (a : ndarray) : M State unit :=
  fun s => mk_outcome (Ok tt) (written l a s) [].

(** [self._grid['node'][name]]: the array object bound to a node field. *)
Definition node_field (name : string) : M State (loc * ndarray) :=
  s ← get;
  match at_node (grid (world s)) !! name with
  | Some l => a ← deref l; mret (l, a)
  | None => raise (KeyError name)
  end.

(** [self._grid['node'][name][:] = src]. *)
Definition assign_node_field (name : string) (src : ndarray) : M State unit :=
  '(l, a) ← node_field name;
  a' ← lift (np_slice_assign a src);
  store l a'.

(** [self._grid['node'][name][idx] = v]. *)
Definition assign_node_field_at (name : string) (idx : list Z) (v : value) : M State unit :=
  '(l, a) ← node_field name;
  a' ← lift (np_index_assign a idx v);
  store l a'.

(** ** The component *)

Definition VoronoiDelaunayGrid : string := "VoronoiDelaunayGrid".

(** [isinstance(g, cls)]: [cls] is [type(g)] or one of its base classes. *)
Definition isinstance (g : ModelGrid) (cls : string) : bool :=
  bool_decide (cls ∈ grid_mro g).

(** [super(FlowDirectorSteepestDescent, self).__init__(grid, surface)]. *)
Definition super_init `{Landlab} (surface : Surface) : M World Component :=
  fun w =>
    let '(r, (fields, h)) := FlowDirectorToOne_init surface w in
    mk_outcome r (mk_world (mk_grid (grid_mro (grid w)) (bc_set_code (grid w)) fields) h)
      [call_super_init surface].

(** [FlowDirectorSteepestDescent.__init__(self, grid, surface)]; the world
    holds [grid]. *)
Definition __init__ `{Landlab} (surface : Surface) : M World Component :=
  c ← super_init surface;
  w ← get;
  let c := set_is_Voroni (isinstance (grid w) VoronoiDelaunayGrid) c in
  if negb (_is_Voroni c) then
    raise (NotImplementedError
             "FlowDirectorSteepestDescent not implemented for grids, use FlowDirectorD4 or FlowDirectorD8 instead.")
  else
    mret (set_method "SteepestDescent" c).

(** The parts of [run_one_step], named after the comments that head them in
    the source. *)

(** "step 0. Check and update BCs" *)
Definition check_and_update_BCs `{Landlab} : M State unit :=
  s ← get;
  if decide (_bc_set_code (self s) ≠ bc_set_code (grid (world s))) then
    emit call_updated_boundary_conditions;;
    c ← lift (updated_boundary_conditions (self s) (world s));
    set_self (set_bc_set_code (bc_set_code (grid (world s))) c)
  else mret tt.

(** "step 1. Calculate link slopes." *)
Definition calculate_link_slopes `{Landlab} : M State (list float) :=
  s ← get;
  z ← deref (elevs (self s));
  emit (call_calc_grad_of_active_link z);;
  grad ← lift (calc_grad_of_active_link (world s) z);
  mret (PrimFloat.opp <$> grad).

(** "Step 2. Find and save base level nodes." *)
Definition find_baselevel_nodes `{Landlab} : M State (list Z) :=
  s ← get;
  emit get_status_at_node;;
  status1 ← lift (status_at_node (world s));
  emit get_status_at_node;;
  status2 ← lift (status_at_node (world s));
  is_baselevel ← lift (np_logical_or (np_equal status1 FIXED_VALUE_BOUNDARY)
                                      (np_equal status2 FIXED_GRADIENT_BOUNDARY));
  mret (np_where is_baselevel).

(** The base-level nodes of a status array: what step 2 finds when both
    reads of [status_at_node] give [st]. *)
Definition baselevel_of `{Landlab} (st : list Z) : list Z :=
  np_where (zip_with orb (np_equal st FIXED_VALUE_BOUNDARY)
              (np_equal st FIXED_GRADIENT_BOUNDARY)).

(** "Calculate flow directions" *)
Definition calculate_flow_directions `{Landlab} (link_slope : list float)
    (baselevel_nodes : list Z) : M State (list Z * list float * list Z * list Z) :=
  s ← get;
  z ← deref (elevs (self s));
  emit (call_flow_directions z (_active_links (self s)) (_activelink_tail (self s))
          (_activelink_head (self s)) link_slope baselevel_nodes);;
  lift (flow_directions z (_active_links (self s)) (_activelink_tail (self s))
          (_activelink_head (self s)) link_slope (world s) baselevel_nodes).

(** "Save the four ouputs of this component." *)
Definition save_outputs (receiver : list Z) (steepest_slope : list float)
    (sink recvr_link : list Z) : M State unit :=
  assign_node_field "flow__receiver_node" (int_array receiver);;
  assign_node_field "topographic__steepest_slope" (float_array steepest_slope);;
  assign_node_field "flow__link_to_receiver_node" (int_array recvr_link);;
  assign_node_field "flow__sink_flag" (np_zeros_like_bool receiver);;
  assign_node_field_at "flow__sink_flag" sink (VBool true).

(** Everything after step 0. *)
Definition direct_flow `{Landlab} : M State unit :=
  link_slope ← calculate_link_slopes;
  baselevel_nodes ← find_baselevel_nodes;
  '(receiver, steepest_slope, sink, recvr_link) ←
    calculate_flow_directions link_slope baselevel_nodes;
  s ← get;
  set_self (set_sink sink (self s));;
  save_outputs receiver steepest_slope sink recvr_link.

(** [FlowDirectorSteepestDescent.run_one_step(self)]. *)
Definition run_one_step `{Landlab} : M State unit :=
  check_and_update_BCs;; direct_flow.

(** The node fields the component writes. *)
Definition output_fields : list string :=
  ["flow__receiver_node"; "topographic__steepest_slope";
   "flow__link_to_receiver_node"; "flow__sink_flag"].

(** An array object bound to one of the output fields. *)
Definition is_output_array (g : ModelGrid) (l : loc) : Prop :=
  exists name, name ∈ output_fields /\ at_node g !! name = Some l.

(** The four output fields are four different array objects. *)
Definition distinct_outputs (g : ModelGrid) : Prop :=
  forall n1 n2 l, n1 ∈ output_fields -> n2 ∈ output_fields ->
    at_node g !! n1 = Some l -> at_node g !! n2 = Some l -> n1 = n2.

(** What a step may do to the grid and its arrays: names stay bound to the
    same array objects, no array appears or disappears, every array keeps
    its dtype and its length, and only the arrays of the output fields
    change contents. *)
Definition writes_outputs_only (s s' : State) : Prop :=
  grid (world s') = grid (world s) /\
  forall l,
    match heap (world s) !! l with
    | None => heap (world s') !! l = None
    | Some a =>
        exists a', heap (world s') !! l = Some a' /\
          arr_dtype a' = arr_dtype a /\
          length (arr_data a') = length (arr_data a) /\
          (~ is_output_array (grid (world s)) l -> a' = a)
    end.

(** [grid.at_node[name]] in a state. *)
Definition at_node_array (s : State) (name : string) : option ndarray :=
  l ← at_node (grid (world s)) !! name;
  heap (world s) !! l.

(** ** The flow-direction routine *)

(** Modelled from the spec: the constant [BAD_INDEX_VALUE] is defined
    elsewhere in landlab.  It is the "sentinel if none" of the link array,
    and the documented example prints it as -1. *)
Definition BAD_INDEX_VALUE : Z := -1.

(** One active link as [flow_directions] receives it: its id, its tail and
    head nodes, and its slope.  [run_one_step] passes the negated gradient,
    so a positive slope descends from the tail to the head. *)
Definition active_link : Type := Z * Z * Z * float.

Definition link_table (active_links tail_node head_node : list Z)
    (link_slope : list float) : list active_link :=
  zip (zip (zip active_links tail_node) head_node) link_slope.

(** A way down from a node: the neighbour, the downhill slope to it and the
    link that leads there. *)
Definition descent : Type := Z * float * Z.

(** The way down from node [n] along one link, when the link touches [n] and
    its other end is lower. *)
Definition downhill_from (n : Z) (lk : active_link) : option descent :=
  let '(id, t, h, s) := lk in
  if (t =? n) && PrimFloat.ltb 0%float s then Some (h, s, id)
  else if (h =? n) && PrimFloat.ltb 0%float (- s)%float then Some (t, (- s)%float, id)
  else None.

(** The steeper of the best way down found so far and a new one; the first
    found is kept on a tie. *)
Definition steeper (best : option descent) (new : option descent) : option descent :=
  match best, new with
  | Some (_, s0, _), Some (_, s, _) => if PrimFloat.ltb s0 s then new else best
  | None, _ => new
  | _, None => best
  end.

Definition steepest_descent (n : Z) (links : list active_link) : option descent :=
  foldl (fun best lk => steeper best (downhill_from n lk)) None links.

(** Modelled from the spec: [flow_direction_DN.flow_directions] is not among
    the sources.  The spec has it assign "each node a single downslope
    receiver node, the steepest downhill slope to that receiver, the
    connecting link, and whether the node is a local sink", with "receiver
    node id (self-id if no receiver), steepest downhill slope, id of link to
    receiver (sentinel if none)", a sink being a "node with no downhill
    neighbor".  Base-level nodes are where flow leaves the mesh: they are
    given no receiver, as every boundary node of the documented example.
    There is one entry per element of [elev]. *)
Definition route (links : list active_link) (baselevel_nodes : list Z) (n : Z) : option descent :=
  if bool_decide (n ∈ baselevel_nodes) then None else steepest_descent n links.

(** Modelled from the spec: [flow_direction_DN.flow_directions] is not among
    the sources.  For every node of [elev], in order: its receiver (its own
    id if [route] gives none), the steepest downhill slope (zero if none),
    whether it is a sink (listed when [route] gives none) and the link to
    the receiver ([BAD_INDEX_VALUE] if none). *)
Definition flow_directions_model (elev : ndarray)
    (active_links tail_node head_node : list Z) (link_slope : list float)
    (w : World) (baselevel_nodes : list Z) :
    result (list Z * list float * list Z * list Z) :=
  let nodes := seqZ 0 (Z.of_nat (length (arr_data elev))) in
  let to := route (link_table active_links tail_node head_node link_slope) baselevel_nodes in
  Ok ((fun n => match to n with Some (r, _, _) => r | None => n end) <$> nodes,
      (fun n => match to n with Some (_, s, _) => s | None => 0%float end) <$> nodes,
      filter (fun n => to n = None) nodes,
      (fun n => match to n with Some (_, _, l) => l | None => BAD_INDEX_VALUE end) <$> nodes).

(** A landlab whose [flow_directions] is the routine above. *)
Definition with_flow_directions_model (L : Landlab) : Landlab :=
  {| FIXED_VALUE_BOUNDARY := @FIXED_VALUE_BOUNDARY L;
     FIXED_GRADIENT_BOUNDARY := @FIXED_GRADIENT_BOUNDARY L;
     FlowDirectorToOne_init := @FlowDirectorToOne_init L;
     updated_boundary_conditions := @updated_boundary_conditions L;
     calc_grad_of_active_link := @calc_grad_of_active_link L;
     status_at_node := @status_at_node L;
     flow_directions := flow_directions_model |}.

(** ** The documented example as data

    The 19 nodes of the docstring's mesh, laid out in rows of 3, 4, 5, 4 and
    3 with unit spacing; links numbered by the position of their midpoint,
    every link of length one; the 12 perimeter nodes are fixed-value
    boundaries.  The elevations are those the docstring prints for
    [fd.elevs].  This is test data for the definitions above. *)
Module DocExample.

Definition elevation : list float :=
  [0; 1; 2; 0.5; 1.5; 2.5; 3.5; 1; 2; 3; 4; 5; 2.5; 3.5; 4.5; 5.5; 3; 4; 5]%float.

Definition status : list Z :=
  [1; 1; 1; 1; 0; 0; 1; 1; 0; 0; 0; 1; 1; 0; 0; 1; 1; 1; 1].

Definition active_links : list Z :=
  [3; 4; 5; 6; 8; 9; 10; 12; 13; 14; 15; 16; 17; 19; 20; 21; 22; 24; 25; 26;
   27; 28; 29; 31; 32; 33; 35; 36; 37; 38].
Definition activelink_tail : list Z :=
  [0; 1; 1; 2; 3; 4; 5; 3; 4; 4; 5; 5; 6; 7; 8; 9; 10; 8; 8; 9; 9; 10; 10;
   12; 13; 14; 13; 13; 14; 14].
Definition activelink_head : list Z :=
  [4; 4; 5; 5; 4; 5; 6; 8; 8; 9; 9; 10; 10; 8; 9; 10; 11; 12; 13; 13; 14;
   14; 15; 13; 14; 15; 16; 17; 17; 18].

Definition as_float (v : value) : float :=
  match astype dt_float v with VFloat x => x | _ => 0%float end.

(** Gradient of a link of unit length: value at the head minus value at
    the tail. *)
Definition calc_grad (w : World) (z : ndarray) : result (list float) :=
  Ok (zip_with
        (fun t h =>
           (as_float (default (VFloat 0) (arr_data z !! Z.to_nat h))
            - as_float (default (VFloat 0) (arr_data z !! Z.to_nat t)))%float)
        activelink_tail activelink_head).

(** The base class constructor: it resolves the surface and creates the
    four output fields when the grid lacks them. *)
Definition ensure_field (name : string) (a : ndarray)
    (fh : gmap string loc * gmap loc ndarray) : gmap string loc * gmap loc ndarray :=
  match fh.1 !! name with
  | Some _ => fh
  | None => let l := fresh (dom fh.2) in (<[name := l]> fh.1, <[l := a]> fh.2)
  end.

Definition base_init (surface : Surface) (w : World) :
    result Component * (gmap string loc * gmap loc ndarray) :=
  let n := length status in
  let fh :=
    ensure_field "flow__sink_flag" (mk_array dt_int8 (replicate n (VInt 0)))
      (ensure_field "flow__link_to_receiver_node"
         (mk_array dt_int (replicate n (VInt BAD_INDEX_VALUE)))
         (ensure_field "topographic__steepest_slope" (float_array (replicate n 0%float))
            (ensure_field "flow__receiver_node" (int_array (seqZ 0 (Z.of_nat n)))
               (at_node (grid w), heap w)))) in
  let found :=
    match surface with
    | field_name name => at_node (grid w) !! name
    | node_array l => Some l
    end in
  match found with
  | Some l =>
      (Ok (mk_component false None (bc_set_code (grid w)) l active_links
             activelink_tail activelink_head None), fh)
  | None => (Raise (Exception "FieldError" "surface"), (at_node (grid w), heap w))
  end.

Definition landlab : Landlab :=
  {| FIXED_VALUE_BOUNDARY := 1;
     FIXED_GRADIENT_BOUNDARY := 2;
     FlowDirectorToOne_init := base_init;
     updated_boundary_conditions := fun c w => Ok c;
     calc_grad_of_active_link := calc_grad;
     status_at_node := fun w => Ok status;
     flow_directions := flow_directions_model |}.

(** [mg = HexModelGrid(5, 3)] with the field ['topographic__elevation']. *)
Definition mg : World :=
  mk_world
    (mk_grid ["HexModelGrid"; "VoronoiDelaunayGrid"; "ModelGrid"; "object"] 0
       {[ "topographic__elevation" := 1%positive ]})
    {[ 1%positive := float_array elevation ]}.

(** A raster grid with the same field. *)
Definition rmg : World :=
  mk_world
    (mk_grid ["RasterModelGrid"; "ModelGrid"; "object"] 0
       {[ "topographic__elevation" := 1%positive ]})
    {[ 1%positive := float_array elevation ]}.

(** [fd = FlowDirectorSteepestDescent(mg, 'topographic__elevation')]. *)
Definition constructed : outcome World Component :=
  @__init__ landlab (field_name "topographic__elevation") mg.

Definition fd : State :=
  match res constructed with
  | Ok c => mk_state c (final constructed)
  | Raise _ => mk_state (mk_component false None 0 1%positive [] [] [] None) mg
  end.

(** [fd.run_one_step()]. *)
Definition after_one_step : outcome State unit := @run_one_step landlab fd.

(** [mg.at_node[name]] after the step. *)
Definition at_node_after (name : string) : option ndarray :=
  at_node_array (final after_one_step) name.

(** What the step passes to [flow_directions]. *)
Definition link_slope : list float :=
  match calc_grad mg (float_array elevation) with
  | Ok grad => PrimFloat.opp <$> grad
  | Raise _ => []
  end.
Definition baselevel_nodes : list Z := [0; 1; 2; 3; 6; 7; 11; 12; 15; 16; 17; 18].

(** The component on a grid that has lost its output fields. *)
Definition unprepared : State := mk_state (self fd) mg.

(** The same landlab with a flow-direction routine that fails. *)
Definition overflow : exn := Exception "FloatingPointError" "overflow encountered".
Definition failing_landlab : Landlab :=
  {| FIXED_VALUE_BOUNDARY := 1;
     FIXED_GRADIENT_BOUNDARY := 2;
     FlowDirectorToOne_init := base_init;
     updated_boundary_conditions := fun c w => Ok c;
     calc_grad_of_active_link := calc_grad;
     status_at_node := fun w => Ok status;
     flow_directions := fun _ _ _ _ _ _ _ => Raise overflow |}.

(** The four arrays the docstring prints after the step. *)
Definition flow__receiver_node : ndarray :=
  int_array [0; 1; 2; 3; 0; 1; 6; 7; 3; 4; 5; 11; 12; 8; 9; 15; 16; 17; 18].
Definition topographic__steepest_slope : ndarray :=
  float_array
    [0; 0; 0; 0; 1.5; 1.5; 0; 0; 1.5; 1.5; 1.5; 0; 0; 1.5; 1.5; 0; 0; 0; 0]%float.
Definition flow__link_to_receiver_node : ndarray :=
  int_array
    [-1; -1; -1; -1; 3; 5; -1; -1; 12; 14; 16; -1; -1; 25; 27; -1; -1; -1; -1].
Definition flow__sink_flag : ndarray :=
  mk_array dt_int8
    (VInt <$> [1; 1; 1; 1; 0; 0; 1; 1; 0; 0; 0; 1; 1; 0; 0; 1; 1; 1; 1]).

End DocExample.


(** * Properties *)

(** ** Running the steps *)

Lemma run_bind {S A B} (m : M S A) (k : A -> M S B) (s : S) :
  (m ≫= k) s =
  match res (m s) with
  | Ok a =>
      mk_outcome (res (k a (final (m s)))) (final (k a (final (m s))))
        (trace (m s) ++ trace (k a (final (m s))))
  | Raise e => mk_outcome (Raise e) (final (m s)) (trace (m s))
  end.
Proof. reflexivity. Qed.

Ltac run_unfold :=
  unfold assign_node_field, assign_node_field_at, node_field, deref, store,
    set_self, lift, emit, get, raise;
  unfold mbind, mret, M_bind, M_ret; cbn.

Section Steps.
Context {L : Landlab}.

Lemma check_and_update_BCs_run (s : State) :
  check_and_update_BCs s =
  if decide (_bc_set_code (self s) ≠ bc_set_code (grid (world s))) then
    match updated_boundary_conditions (self s) (world s) with
    | Ok c =>
        mk_outcome (Ok tt)
          (mk_state (set_bc_set_code (bc_set_code (grid (world s))) c) (world s))
          [call_updated_boundary_conditions]
    | Raise e => mk_outcome (Raise e) s [call_updated_boundary_conditions]
    end
  else mk_outcome (Ok tt) s [].
Proof.
  unfold check_and_update_BCs. run_unfold.
  case_decide; [|done]. cbn.
  by destruct (updated_boundary_conditions _ _).
Qed.

Lemma calculate_link_slopes_run (s : State) :
  calculate_link_slopes s =
  match heap (world s) !! elevs (self s) with
  | Some z =>
      mk_outcome
        (match calc_grad_of_active_link (world s) z with
         | Ok grad => Ok (PrimFloat.opp <$> grad)
         | Raise e => Raise e
         end) s [call_calc_grad_of_active_link z]
  | None => mk_outcome (Raise (SystemError "dangling reference")) s []
  end.
Proof.
  unfold calculate_link_slopes. run_unfold.
  destruct (heap (world s) !! elevs (self s)) as [z|]; [|done]. cbn.
  by destruct (calc_grad_of_active_link _ _).
Qed.
End Steps.

Lemma np_equal_length (a : list Z) (c : Z) : length (np_equal a c) = length a.
Proof. unfold np_equal. by rewrite length_fmap. Qed.

Lemma np_logical_or_same_shape (a b : list bool) :
  length a = length b -> np_logical_or a b = Ok (zip_with orb a b).
Proof. intros H. unfold np_logical_or. by rewrite decide_True. Qed.

Section MoreSteps.
Context {L : Landlab}.

Lemma find_baselevel_nodes_run (s : State) :
  find_baselevel_nodes s =
  match status_at_node (world s) with
  | Ok st => mk_outcome (Ok (baselevel_of st)) s [get_status_at_node; get_status_at_node]
  | Raise e => mk_outcome (Raise e) s [get_status_at_node]
  end.
Proof.
  unfold find_baselevel_nodes. run_unfold.
  destruct (status_at_node (world s)) as [st|e]; cbn; [|done].
  rewrite np_logical_or_same_shape by (by rewrite !np_equal_length).
  done.
Qed.

Lemma calculate_flow_directions_run (link_slope : list float) (bl : list Z) (s : State) :
  calculate_flow_directions link_slope bl s =
  match heap (world s) !! elevs (self s) with
  | Some z =>
      mk_outcome
        (flow_directions z (_active_links (self s)) (_activelink_tail (self s))
           (_activelink_head (self s)) link_slope (world s) bl)
        s
        [call_flow_directions z (_active_links (self s)) (_activelink_tail (self s))
           (_activelink_head (self s)) link_slope bl]
  | None => mk_outcome (Raise (SystemError "dangling reference")) s []
  end.
Proof.
  unfold calculate_flow_directions. run_unfold.
  destruct (heap (world s) !! elevs (self s)) as [z|]; [|done]. cbn.
  by destruct (flow_directions _ _ _ _ _ _ _).
Qed.
End MoreSteps.

Lemma assign_node_field_run (name : string) (src : ndarray) (s : State) :
  assign_node_field name src s =
  match at_node (grid (world s)) !! name with
  | Some l =>
      match heap (world s) !! l with
      | Some a =>
          match np_slice_assign a src with
          | Ok a' => mk_outcome (Ok tt) (written l a' s) []
          | Raise e => mk_outcome (Raise e) s []
          end
      | None => mk_outcome (Raise (SystemError "dangling reference")) s []
      end
  | None => mk_outcome (Raise (KeyError name)) s []
  end.
Proof.
  run_unfold.
  destruct (at_node (grid (world s)) !! name) as [l|]; [|done]. cbn.
  destruct (heap (world s) !! l) as [a|]; [|done]. cbn.
  by destruct (np_slice_assign a src).
Qed.

Lemma assign_node_field_at_run (name : string) (idx : list Z) (v : value) (s : State) :
  assign_node_field_at name idx v s =
  match at_node (grid (world s)) !! name with
  | Some l =>
      match heap (world s) !! l with
      | Some a =>
          match np_index_assign a idx v with
          | Ok a' => mk_outcome (Ok tt) (written l a' s) []
          | Raise e => mk_outcome (Raise e) s []
          end
      | None => mk_outcome (Raise (SystemError "dangling reference")) s []
      end
  | None => mk_outcome (Raise (KeyError name)) s []
  end.
Proof.
  run_unfold.
  destruct (at_node (grid (world s)) !! name) as [l|]; [|done]. cbn.
  destruct (heap (world s) !! l) as [a|]; [|done]. cbn.
  by destruct (np_index_assign a idx v).
Qed.

Lemma assign_node_field_trace name src s : trace (assign_node_field name src s) = [].
Proof. rewrite assign_node_field_run. by repeat case_match. Qed.

Lemma assign_node_field_at_trace name idx v s : trace (assign_node_field_at name idx v s) = [].
Proof. rewrite assign_node_field_at_run. by repeat case_match. Qed.

Lemma run_seq {S A B} (m : M S A) (k : M S B) (s : S) :
  (m ≫= fun _ => k) s =
  match res (m s) with
  | Ok _ =>
      mk_outcome (res (k (final (m s)))) (final (k (final (m s))))
        (trace (m s) ++ trace (k (final (m s))))
  | Raise e => mk_outcome (Raise e) (final (m s)) (trace (m s))
  end.
Proof. reflexivity. Qed.

Lemma seq_trace_nil {S A B} (m : M S A) (k : M S B) :
  (forall s, trace (m s) = []) -> (forall s, trace (k s) = []) ->
  forall s, trace ((m ≫= fun _ => k) s) = [].
Proof.
  intros Hm Hk s. rewrite run_seq.
  destruct (res (m s)); cbn; rewrite Hm; [apply Hk | done].
Qed.

Lemma save_outputs_trace r ss sk rl s : trace (save_outputs r ss sk rl s) = [].
Proof.
  revert s. unfold save_outputs.
  repeat (apply seq_trace_nil; [intros; apply assign_node_field_trace|]).
  intros; apply assign_node_field_at_trace.
Qed.

Section Run.
Context {L : Landlab}.

Lemma direct_flow_run (s : State) :
  direct_flow s =
  match heap (world s) !! elevs (self s) with
  | None => mk_outcome (Raise (SystemError "dangling reference")) s []
  | Some z =>
      let calc := call_calc_grad_of_active_link z in
      match calc_grad_of_active_link (world s) z with
      | Raise e => mk_outcome (Raise e) s [calc]
      | Ok grad =>
          match status_at_node (world s) with
          | Raise e => mk_outcome (Raise e) s [calc; get_status_at_node]
          | Ok st =>
              let fd :=
                call_flow_directions z (_active_links (self s))
                  (_activelink_tail (self s)) (_activelink_head (self s))
                  (PrimFloat.opp <$> grad) (baselevel_of st) in
              match
                flow_directions z (_active_links (self s)) (_activelink_tail (self s))
                  (_activelink_head (self s)) (PrimFloat.opp <$> grad) (world s)
                  (baselevel_of st)
              with
              | Raise e =>
                  mk_outcome (Raise e) s
                    [calc; get_status_at_node; get_status_at_node; fd]
              | Ok (receiver, steepest_slope, sk, recvr_link) =>
                  let o :=
                    save_outputs receiver steepest_slope sk recvr_link
                      (mk_state (set_sink sk (self s)) (world s)) in
                  mk_outcome (res o) (final o)
                    [calc; get_status_at_node; get_status_at_node; fd]
              end
          end
      end
  end.
Proof.
  unfold direct_flow.
  rewrite run_bind, calculate_link_slopes_run.
  destruct (heap (world s) !! elevs (self s)) as [z|] eqn:Hz; [|done]. cbn.
  destruct (calc_grad_of_active_link (world s) z) as [grad|e]; [|done]. cbn.
  rewrite run_bind, find_baselevel_nodes_run.
  destruct (status_at_node (world s)) as [st|e]; [|done]. cbn.
  rewrite run_bind, calculate_flow_directions_run, Hz. cbn.
  destruct (flow_directions _ _ _ _ _ _ _) as [[[[r ss] sk] rl]|e]; [|done]. cbn.
  run_unfold.
  set (o := save_outputs _ _ _ _ _).
  rewrite (save_outputs_trace r ss sk rl _ : trace o = []).
  by destruct (res o).
Qed.
End Run.

(** ** numpy facts *)

Lemma broadcast_to_length {A} (n : nat) (src l : list A) :
  broadcast_to n src = Ok l -> length l = n.
Proof.
  unfold broadcast_to. case_decide.
  - by intros [= <-].
  - destruct src as [|x [|]]; intros [= <-]. apply length_replicate.
Qed.

Lemma broadcast_to_lookup {A} (n : nat) (src l : list A) (i : nat) (x : A) :
  broadcast_to n src = Ok l -> l !! i = Some x -> src !! i = Some x \/ src = [x].
Proof.
  unfold broadcast_to. case_decide.
  - intros [= <-]. by left.
  - destruct src as [|y [|]]; intros [= <-] Hx.
    apply lookup_replicate in Hx as [-> _]. by right.
Qed.

Lemma np_slice_assign_shape (dst src a : ndarray) :
  np_slice_assign dst src = Ok a ->
  arr_dtype a = arr_dtype dst /\ length (arr_data a) = length (arr_data dst).
Proof.
  unfold np_slice_assign.
  destruct (broadcast_to _ _) as [l|] eqn:Hl; intros [= <-]. cbn.
  rewrite length_fmap. eauto using broadcast_to_length.
Qed.

Lemma np_slice_assign_lookup (dst src a : ndarray) (i : nat) (v : value) :
  np_slice_assign dst src = Ok a -> arr_data a !! i = Some v ->
  exists x, v = astype (arr_dtype dst) x /\
    (arr_data src !! i = Some x \/ arr_data src = [x]).
Proof.
  unfold np_slice_assign.
  destruct (broadcast_to _ _) as [l|] eqn:Hl; intros [= <-]. cbn.
  rewrite list_lookup_fmap. destruct (l !! i) as [x|] eqn:Hx; intros [= <-].
  eauto using broadcast_to_lookup.
Qed.

Lemma foldl_insert_length {A} (x : A) (ps : list nat) (l : list A) :
  length (foldl (fun l p => <[p := x]> l) l ps) = length l.
Proof.
  revert l. induction ps as [|p ps IH]; intros l; cbn; [done|].
  by rewrite IH, length_insert.
Qed.

Lemma foldl_insert_lookup {A} (x : A) (ps : list nat) (l : list A) (i : nat) :
  foldl (fun l p => <[p := x]> l) l ps !! i =
  if decide (i ∈ ps) then (fun _ => x) <$> l !! i else l !! i.
Proof.
  revert l. induction ps as [|p ps IH]; intros l; cbn.
  - rewrite decide_False; [done | apply not_elem_of_nil].
  - rewrite IH. destruct (decide (i = p)) as [->|Hne].
    + rewrite (decide_True _ _ (list_elem_of_here p ps)).
      destruct (decide (p < length l)%nat).
      * rewrite list_lookup_insert_eq by done.
        destruct (lookup_lt_is_Some_2 l p) as [y ->]; [done|].
        by case_decide.
      * rewrite list_insert_ge by lia.
        rewrite (lookup_ge_None_2 l p) by lia. by case_decide.
    + rewrite list_lookup_insert_ne by done.
      destruct (decide (i ∈ ps)) as [Hin|Hin].
      * by rewrite decide_True by (by right).
      * rewrite decide_False; [done|]. by intros [?|?]%elem_of_cons.
Qed.

Lemma np_index_assign_shape (dst : ndarray) (idx : list Z) (v : value) (a : ndarray) :
  np_index_assign dst idx v = Ok a ->
  arr_dtype a = arr_dtype dst /\ length (arr_data a) = length (arr_data dst).
Proof.
  unfold np_index_assign. destruct (mapM _ _); intros [= <-]. cbn.
  by rewrite foldl_insert_length.
Qed.

Lemma where_from_elem (c : list bool) (i n : Z) :
  n ∈ where_from i c <-> exists k : nat, c !! k = Some true /\ n = i + Z.of_nat k.
Proof.
  revert i. induction c as [|b c IH]; intros i; cbn.
  - split; [by intros ?%elem_of_nil | by intros (k & ? & _)].
  - assert (n ∈ where_from (i + 1) c <->
            exists k : nat, (b :: c) !! S k = Some true /\ n = i + Z.of_nat (S k)) as Htail.
    { rewrite IH. split; intros (k & ? & ->); exists k; (split; [done | lia]). }
    destruct b.
    + rewrite elem_of_cons, Htail. split.
      * intros [-> | (k & ? & ?)]; [exists 0%nat | exists (S k)]; (split; [done | lia]).
      * intros ([|k] & ? & ->); [left; lia | right; eauto].
    + rewrite Htail. split.
      * intros (k & ? & ?). eauto.
      * intros ([|k] & ? & ?); [done | eauto].
Qed.

Lemma astype_false_falsy (d : dtype) : truthy (astype d (VBool false)) = false.
Proof. by destruct d. Qed.

Lemma astype_true_truthy (d : dtype) : truthy (astype d (VBool true)) = true.
Proof. by destruct d. Qed.

Lemma float_pos_nonneg (x : float) :
  PrimFloat.ltb 0%float x = true -> PrimFloat.leb 0%float x = true.
Proof.
  rewrite ltb_spec, leb_spec. unfold SFltb, SFleb.
  by destruct (SFcompare _ _) as [[]|].
Qed.

(** ** The frame of the writes *)

Lemma writes_outputs_only_refl (s : State) : writes_outputs_only s s.
Proof.
  split; [done|]. intros l. destruct (heap (world s) !! l) as [a|]; eauto.
Qed.

Lemma writes_outputs_only_trans (s1 s2 s3 : State) :
  writes_outputs_only s1 s2 -> writes_outputs_only s2 s3 -> writes_outputs_only s1 s3.
Proof.
  intros [Hg1 H1] [Hg2 H2]. split; [congruence|]. intros l.
  specialize (H1 l). specialize (H2 l).
  destruct (heap (world s1) !! l) as [a|].
  - destruct H1 as (a' & Ha' & Hd & Hn & Hsame). rewrite Ha' in H2.
    destruct H2 as (a'' & Ha'' & Hd' & Hn' & Hsame').
    exists a''. repeat split; [done | congruence | congruence |].
    intros Hout. rewrite Hg1 in Hsame'. rewrite Hsame', Hsame; done.
  - by rewrite H1 in H2.
Qed.

Lemma written_frame (l : loc) (a a' : ndarray) (s : State) :
  is_output_array (grid (world s)) l ->
  heap (world s) !! l = Some a ->
  arr_dtype a' = arr_dtype a /\ length (arr_data a') = length (arr_data a) ->
  writes_outputs_only s (written l a' s).
Proof.
  intros Hout Ha [Hd Hn]. split; [done|]. intros l'. cbn.
  destruct (decide (l = l')) as [<-|Hne].
  - rewrite Ha, lookup_insert_eq. exists a'. by repeat split.
  - rewrite lookup_insert_ne by done.
    destruct (heap (world s) !! l') as [b|]; eauto.
Qed.

Lemma assign_node_field_frame (name : string) (src : ndarray) (s : State) :
  name ∈ output_fields ->
  writes_outputs_only s (final (assign_node_field name src s)) /\
  self (final (assign_node_field name src s)) = self s.
Proof.
  intros Hname. rewrite assign_node_field_run.
  destruct (at_node _ !! name) as [l|] eqn:Hl; [|by split; [apply writes_outputs_only_refl|]].
  destruct (heap _ !! l) as [a|] eqn:Ha; [|by split; [apply writes_outputs_only_refl|]].
  destruct (np_slice_assign a src) as [a'|] eqn:Ha';
    [|by split; [apply writes_outputs_only_refl|]].
  split; [|done]. cbn.
  eapply written_frame; [by exists name | done | by eapply np_slice_assign_shape].
Qed.

Lemma assign_node_field_at_frame (name : string) (idx : list Z) (v : value) (s : State) :
  name ∈ output_fields ->
  writes_outputs_only s (final (assign_node_field_at name idx v s)) /\
  self (final (assign_node_field_at name idx v s)) = self s.
Proof.
  intros Hname. rewrite assign_node_field_at_run.
  destruct (at_node _ !! name) as [l|] eqn:Hl; [|by split; [apply writes_outputs_only_refl|]].
  destruct (heap _ !! l) as [a|] eqn:Ha; [|by split; [apply writes_outputs_only_refl|]].
  destruct (np_index_assign a idx v) as [a'|] eqn:Ha';
    [|by split; [apply writes_outputs_only_refl|]].
  split; [|done]. cbn.
  eapply written_frame; [by exists name | done | by eapply np_index_assign_shape].
Qed.

(** Sequencing keeps a frame that each part keeps. *)
Lemma seq_frame {A B} (m : M State A) (k : M State B) :
  (forall s, writes_outputs_only s (final (m s)) /\ self (final (m s)) = self s) ->
  (forall s, writes_outputs_only s (final (k s)) /\ self (final (k s)) = self s) ->
  forall s, writes_outputs_only s (final ((m ≫= fun _ => k) s)) /\
            self (final ((m ≫= fun _ => k) s)) = self s.
Proof.
  intros Hm Hk s. rewrite run_seq.
  destruct (Hm s) as [Hw Hs]. destruct (res (m s)); cbn; [|done].
  destruct (Hk (final (m s))) as [Hw' Hs'].
  split; [by eapply writes_outputs_only_trans | congruence].
Qed.

Lemma save_outputs_frame r ss sk rl (s : State) :
  writes_outputs_only s (final (save_outputs r ss sk rl s)) /\
  self (final (save_outputs r ss sk rl s)) = self s.
Proof.
  revert s. unfold save_outputs.
  repeat (apply seq_frame;
          [intros; apply assign_node_field_frame; unfold output_fields; set_solver|]).
  intros; apply assign_node_field_at_frame; unfold output_fields; set_solver.
Qed.

(** ** Step 0 and the rest of the run *)

Section RunOneStep.
Context {L : Landlab}.

Lemma check_and_update_BCs_world (s : State) :
  world (final (check_and_update_BCs s)) = world s.
Proof.
  rewrite check_and_update_BCs_run. by repeat case_match.
Qed.

Lemma check_and_update_BCs_trace (s : State) :
  trace (check_and_update_BCs s) =
  if decide (_bc_set_code (self s) ≠ bc_set_code (grid (world s)))
  then [call_updated_boundary_conditions] else [].
Proof.
  rewrite check_and_update_BCs_run. by repeat case_match.
Qed.

Lemma check_and_update_BCs_in_sync (s : State) :
  res (check_and_update_BCs s) = Ok tt ->
  _bc_set_code (self (final (check_and_update_BCs s))) = bc_set_code (grid (world s)).
Proof.
  rewrite check_and_update_BCs_run. case_decide as Hc.
  - by destruct (updated_boundary_conditions _ _).
  - intros _. cbn. by destruct (decide (_bc_set_code (self s) = bc_set_code (grid (world s)))).
Qed.

(** What step 0 leaves of the component: the component as it was, or as
    [updated_boundary_conditions] returned it with the new code. *)
Lemma check_and_update_BCs_self (s : State) :
  self (final (check_and_update_BCs s)) = self s \/
  exists c, _bc_set_code (self s) ≠ bc_set_code (grid (world s)) /\
    updated_boundary_conditions (self s) (world s) = Ok c /\
    self (final (check_and_update_BCs s)) =
      set_bc_set_code (bc_set_code (grid (world s))) c.
Proof.
  rewrite check_and_update_BCs_run. case_decide as Hc; [|by left].
  destruct (updated_boundary_conditions _ _) as [c|] eqn:Hu; [right; eauto | by left].
Qed.

Lemma direct_flow_trace_calls (s : State) (c : call) :
  c ∈ trace (direct_flow s) -> c ≠ call_updated_boundary_conditions.
Proof.
  rewrite direct_flow_run. intros Hin ->.
  repeat case_match; cbn in Hin;
    repeat (apply elem_of_cons in Hin as [?|Hin]; [discriminate|]);
    by apply elem_of_nil in Hin.
Qed.

Lemma direct_flow_frame (s : State) :
  writes_outputs_only s (final (direct_flow s)) /\
  (self (final (direct_flow s)) = self s \/
   exists sk, self (final (direct_flow s)) = set_sink sk (self s)).
Proof.
  rewrite direct_flow_run.
  repeat case_match; cbn; try (split; [apply writes_outputs_only_refl | by left]).
  match goal with
  | |- context [save_outputs ?r ?ss ?sk ?rl ?s1] =>
      destruct (save_outputs_frame r ss sk rl s1) as [Hw Hs]
  end.
  split; [exact Hw | right; eauto].
Qed.

Lemma run_one_step_run (s : State) :
  run_one_step s =
  match res (check_and_update_BCs s) with
  | Ok _ =>
      mk_outcome (res (direct_flow (final (check_and_update_BCs s))))
        (final (direct_flow (final (check_and_update_BCs s))))
        (trace (check_and_update_BCs s)
           ++ trace (direct_flow (final (check_and_update_BCs s))))
  | Raise e =>
      mk_outcome (Raise e) (final (check_and_update_BCs s))
        (trace (check_and_update_BCs s))
  end.
Proof. reflexivity. Qed.

End RunOneStep.

(** C7: [run_one_step] calls [updated_boundary_conditions] exactly when the
    grid's [bc_set_code] differs from the cached [_bc_set_code] at the start
    of the call, and after a run that completes the cached code equals the
    grid's. *)
Theorem run_one_step_refreshes_boundary_conditions (L : Landlab) (s : State) :
  (call_updated_boundary_conditions ∈ trace (run_one_step s) <->
   _bc_set_code (self s) ≠ bc_set_code (grid (world s))) /\
  (res (run_one_step s) = Ok tt ->
   _bc_set_code (self (final (run_one_step s))) =
   bc_set_code (grid (world (final (run_one_step s))))).
Proof.
  rewrite run_one_step_run. split.
  - assert (call_updated_boundary_conditions ∈ trace (check_and_update_BCs s) <->
            _bc_set_code (self s) ≠ bc_set_code (grid (world s))) as H0.
    { rewrite check_and_update_BCs_trace. case_decide; set_solver. }
    destruct (res (check_and_update_BCs s)); cbn; [|done].
    rewrite elem_of_app, H0. split; [|by left].
    intros [?|Hin]; [done|]. by apply direct_flow_trace_calls in Hin.
  - pose proof (check_and_update_BCs_in_sync s) as Hsync.
    pose proof (check_and_update_BCs_world s) as Hw.
    destruct (res (check_and_update_BCs s)) as [[]|]; cbn; [|done].
    intros _.
    destruct (direct_flow_frame (final (check_and_update_BCs s))) as [[Hg _] Hself].
    rewrite Hg, Hw.
    destruct Hself as [-> | [sk ->]]; cbn; by apply Hsync.
Qed.

(** C10: [run_one_step] writes the grid only through the four output node
    fields, in place.  Whatever the outcome of the run: every field name
    stays bound to the same array object and the grid's boundary code is
    untouched; no array appears or disappears; every array keeps its dtype
    and its length; an array that is not bound to one of the four output
    fields keeps its contents, in particular the routed elevations when they
    are not themselves one of the output arrays.  Of the component, the run
    itself changes [_bc_set_code] and [sink] only: its other attributes are
    those it had, or those [updated_boundary_conditions] returned. *)
Theorem run_one_step_frame (L : Landlab) (s : State) :
  writes_outputs_only s (final (run_one_step s)) /\
  (~ is_output_array (grid (world s)) (elevs (self s)) ->
   heap (world (final (run_one_step s))) !! elevs (self s) =
   heap (world s) !! elevs (self s)) /\
  (exists c0,
     (c0 = self s \/
      _bc_set_code (self s) ≠ bc_set_code (grid (world s)) /\
      updated_boundary_conditions (self s) (world s) = Ok c0) /\
     _is_Voroni (self (final (run_one_step s))) = _is_Voroni c0 /\
     method (self (final (run_one_step s))) = method c0 /\
     elevs (self (final (run_one_step s))) = elevs c0 /\
     _active_links (self (final (run_one_step s))) = _active_links c0 /\
     _activelink_tail (self (final (run_one_step s))) = _activelink_tail c0 /\
     _activelink_head (self (final (run_one_step s))) = _activelink_head c0).
Proof.
  assert (writes_outputs_only s (final (run_one_step s))) as Hframe.
  { rewrite run_one_step_run.
    assert (writes_outputs_only s (final (check_and_update_BCs s))) as H0.
    { pose proof (check_and_update_BCs_world s) as Hw.
      split; [by rewrite Hw|]. intros l. rewrite Hw.
      destruct (heap (world s) !! l); eauto. }
    destruct (res (check_and_update_BCs s)); cbn; [|done].
    eapply writes_outputs_only_trans; [exact H0 | apply direct_flow_frame]. }
  split; [exact Hframe|]. split.
  - intros Hz. destruct Hframe as [_ Hh]. specialize (Hh (elevs (self s))).
    destruct (heap (world s) !! elevs (self s)) as [a|]; [|done].
    destruct Hh as (a' & -> & _ & _ & Hsame). by rewrite Hsame.
  - rewrite run_one_step_run.
    assert (exists c0,
      (c0 = self s \/
       _bc_set_code (self s) ≠ bc_set_code (grid (world s)) /\
       updated_boundary_conditions (self s) (world s) = Ok c0) /\
      forall c, (c = self (final (check_and_update_BCs s)) \/
                 exists sk, c = set_sink sk (self (final (check_and_update_BCs s)))) ->
        _is_Voroni c = _is_Voroni c0 /\ method c = method c0 /\ elevs c = elevs c0 /\
        _active_links c = _active_links c0 /\ _activelink_tail c = _activelink_tail c0 /\
        _activelink_head c = _activelink_head c0) as (c0 & Hc0 & Hsame).
    { destruct (check_and_update_BCs_self s) as [-> | (c & Hne & Hu & ->)].
      - exists (self s). split; [by left|]. by intros c [-> | [sk ->]].
      - exists c. split; [by right|]. by intros c' [-> | [sk ->]]. }
    exists c0. split; [exact Hc0|].
    destruct (res (check_and_update_BCs s)); cbn; [|apply Hsame; by left].
    apply Hsame, direct_flow_frame.
Qed.

(** C8: an exception raised by a collaborator leaves [run_one_step] as it
    was raised.  For each of [updated_boundary_conditions],
    [calc_grad_of_active_link], [status_at_node] and [flow_directions]: when
    the call raises [e], the run raises [e], the state is the one the call
    was made in, and the trace ends with that one call: nothing is caught,
    retried or undone. *)
Theorem run_one_step_propagates (L : Landlab) (s : State) (e : exn) :
  (_bc_set_code (self s) ≠ bc_set_code (grid (world s)) ->
   updated_boundary_conditions (self s) (world s) = Raise e ->
   run_one_step s = mk_outcome (Raise e) s [call_updated_boundary_conditions]) /\
  (forall s0 z,
     res (check_and_update_BCs s) = Ok tt ->
     final (check_and_update_BCs s) = s0 ->
     heap (world s0) !! elevs (self s0) = Some z ->
     let calc := call_calc_grad_of_active_link z in
     (calc_grad_of_active_link (world s0) z = Raise e ->
      run_one_step s =
      mk_outcome (Raise e) s0 (trace (check_and_update_BCs s) ++ [calc])) /\
     (forall grad,
        calc_grad_of_active_link (world s0) z = Ok grad ->
        (status_at_node (world s0) = Raise e ->
         run_one_step s =
         mk_outcome (Raise e) s0
           (trace (check_and_update_BCs s) ++ [calc; get_status_at_node])) /\
        (forall st,
           status_at_node (world s0) = Ok st ->
           flow_directions z (_active_links (self s0)) (_activelink_tail (self s0))
             (_activelink_head (self s0)) (PrimFloat.opp <$> grad) (world s0)
             (baselevel_of st) = Raise e ->
           run_one_step s =
           mk_outcome (Raise e) s0
             (trace (check_and_update_BCs s)
                ++ [calc; get_status_at_node; get_status_at_node;
                    call_flow_directions z (_active_links (self s0))
                      (_activelink_tail (self s0)) (_activelink_head (self s0))
                      (PrimFloat.opp <$> grad) (baselevel_of st)])))).
Proof.
  split.
  - intros Hne Hu. rewrite run_one_step_run, check_and_update_BCs_run.
    rewrite decide_True by done. by rewrite Hu.
  - intros s0 z Hok <- Hz calc. rewrite run_one_step_run, Hok.
    rewrite direct_flow_run, Hz. subst calc. cbn zeta. split.
    + by intros ->.
    + intros grad ->. split.
      * by intros ->.
      * by intros st -> ->.
Qed.

Lemma baselevel_of_elem (L : Landlab) (st : list Z) (n : Z) :
  n ∈ baselevel_of st <->
  exists c, 0 <= n /\ st !! Z.to_nat n = Some c /\
    (c = FIXED_VALUE_BOUNDARY \/ c = FIXED_GRADIENT_BOUNDARY).
Proof.
  unfold baselevel_of, np_where, np_equal. rewrite where_from_elem. split.
  - intros (k & Hk & ->).
    apply lookup_zip_with_Some in Hk as (b1 & b2 & Hor & H1 & H2).
    rewrite list_lookup_fmap in H1, H2.
    destruct (st !! k) as [c|] eqn:Hc; [|done].
    injection H1 as <-. injection H2 as <-.
    exists c. rewrite Z.add_0_l, Nat2Z.id. split; [lia|]. split; [done|].
    symmetry in Hor. apply orb_true_iff in Hor as [?%Z.eqb_eq | ?%Z.eqb_eq]; eauto.
  - intros (c & Hn & Hc & Hcode). exists (Z.to_nat n). split; [|lia].
    apply lookup_zip_with_Some. exists (c =? FIXED_VALUE_BOUNDARY), (c =? FIXED_GRADIENT_BOUNDARY).
    rewrite !list_lookup_fmap, Hc. split; [|done].
    symmetry. apply orb_true_iff. destruct Hcode as [->| ->]; rewrite Z.eqb_refl; eauto.
Qed.

(** C6: whenever [run_one_step] calls [flow_directions], the base-level
    nodes it passes are exactly the nodes whose [status_at_node] is
    [FIXED_VALUE_BOUNDARY] or [FIXED_GRADIENT_BOUNDARY]. *)
Theorem baselevel_nodes_are_the_fixed_boundaries (L : Landlab) (s : State)
    (z : ndarray) (al tl hd : list Z) (link_slope : list float) (bl : list Z) :
  call_flow_directions z al tl hd link_slope bl ∈ trace (run_one_step s) ->
  exists st, status_at_node (world s) = Ok st /\
    forall n : Z,
      n ∈ bl <->
      exists c, 0 <= n /\ st !! Z.to_nat n = Some c /\
        (c = FIXED_VALUE_BOUNDARY \/ c = FIXED_GRADIENT_BOUNDARY).
Proof.
  rewrite run_one_step_run. intros Hin.
  assert (call_flow_directions z al tl hd link_slope bl
            ∈ trace (direct_flow (final (check_and_update_BCs s)))) as Hd.
  { destruct (res (check_and_update_BCs s)); cbn in Hin.
    - apply elem_of_app in Hin as [Hin|Hin]; [|done].
      rewrite check_and_update_BCs_trace in Hin.
      case_decide; [by apply list_elem_of_singleton in Hin | by apply elem_of_nil in Hin].
    - rewrite check_and_update_BCs_trace in Hin.
      case_decide; [by apply list_elem_of_singleton in Hin | by apply elem_of_nil in Hin]. }
  clear Hin. rewrite direct_flow_run, check_and_update_BCs_world in Hd.
  destruct (heap (world s) !! _) as [z'|]; [|by apply elem_of_nil in Hd].
  cbn zeta in Hd.
  destruct (calc_grad_of_active_link (world s) z') as [grad|];
    [|by apply list_elem_of_singleton in Hd].
  destruct (status_at_node (world s)) as [st|] eqn:Hst.
  - exists st. split; [done|].
    assert (bl = baselevel_of st) as ->; [|intros n; apply baselevel_of_elem].
    destruct (flow_directions _ _ _ _ _ _ _) as [[[[r ss] sk] rl]|]; cbn in Hd;
      repeat (apply elem_of_cons in Hd as [Heq|Hd]; [by inversion Heq|]);
      by apply elem_of_nil in Hd.
  - cbn in Hd.
    repeat (apply elem_of_cons in Hd as [Heq|Hd]; [by inversion Heq|]).
    by apply elem_of_nil in Hd.
Qed.

(** ** Construction *)

Lemma isinstance_mro (g : ModelGrid) (cls : string) :
  isinstance g cls = true <-> cls ∈ grid_mro g.
Proof. unfold isinstance. by rewrite bool_decide_eq_true. Qed.

(** C2, as amended: once the inherited constructor has returned,
    construction raises [NotImplementedError] exactly when the grid is not
    an instance of [VoronoiDelaunayGrid] (its class is neither that class
    nor derived from it); on an instance it completes, with [_is_Voroni] set
    and [method] ['SteepestDescent'].  The check is part of construction:
    the only call made before it is the inherited constructor, and a
    construction that raises yields no component to run.  When the inherited
    constructor raises, the check is not reached. *)
Theorem init_rejects_non_voronoi_grids (L : Landlab) (surface : Surface) (w : World)
    (c : Component) :
  (FlowDirectorToOne_init surface w).1 = Ok c ->
  ((exists msg, res (__init__ surface w) = Raise (NotImplementedError msg)) <->
   VoronoiDelaunayGrid ∉ grid_mro (grid w)) /\
  (VoronoiDelaunayGrid ∈ grid_mro (grid w) ->
   res (__init__ surface w) = Ok (set_method "SteepestDescent" (set_is_Voroni true c))) /\
  trace (__init__ surface w) = [call_super_init surface].
Proof.
  intros Hbase. unfold __init__, super_init. run_unfold.
  destruct (FlowDirectorToOne_init surface w) as [r [fields h]]. cbn in Hbase. subst r.
  cbn. unfold isinstance. cbn.
  destruct (decide (VoronoiDelaunayGrid ∈ grid_mro (grid w))) as [Hv|Hv].
  - rewrite !bool_decide_eq_true_2 by done. cbn.
    split; [|done]. split; [by intros [msg ?] | done].
  - rewrite !bool_decide_eq_false_2 by done. cbn.
    split; [|done]. split; [done | eauto].
Qed.

Lemma init_rejects_non_voronoi_grids_witness :
  ((exists msg,
      res (@__init__ DocExample.landlab (field_name "topographic__elevation")
             DocExample.rmg) = Raise (NotImplementedError msg)) <->
   VoronoiDelaunayGrid ∉ grid_mro (grid DocExample.rmg)) /\
  (VoronoiDelaunayGrid ∈ grid_mro (grid DocExample.rmg) ->
   res (@__init__ DocExample.landlab (field_name "topographic__elevation")
          DocExample.rmg) =
   Ok (set_method "SteepestDescent"
         (set_is_Voroni true
            (mk_component false None 0 1%positive DocExample.active_links
               DocExample.activelink_tail DocExample.activelink_head None)))) /\
  trace (@__init__ DocExample.landlab (field_name "topographic__elevation")
           DocExample.rmg) =
  [call_super_init (field_name "topographic__elevation")].
Proof.
  apply (init_rejects_non_voronoi_grids DocExample.landlab
           (field_name "topographic__elevation") DocExample.rmg).
  vm_compute. reflexivity.
Defined.

(** C2, as stated, fails: the class of the grid is checked after the
    inherited constructor has run.  On a raster grid with a surface name
    the grid does not have, that constructor raises first, so the grid is
    not a [VoronoiDelaunayGrid] and yet no [NotImplementedError] is
    raised. *)
Lemma init_on_raster_grid_without_surface :
  ~ ((exists msg,
        res (@__init__ DocExample.landlab (field_name "no_such_field") DocExample.rmg)
        = Raise (NotImplementedError msg)) <->
     VoronoiDelaunayGrid ∉ grid_mro (grid DocExample.rmg)).
Proof.
  intros [_ Hraise].
  destruct Hraise as [msg Hmsg].
  - unfold VoronoiDelaunayGrid. cbn. intros Hin.
    repeat (apply elem_of_cons in Hin as [Heq|Hin]; [discriminate Heq|]).
    by apply elem_of_nil in Hin.
  - vm_compute in Hmsg. discriminate Hmsg.
Qed.

(** ** Runs that complete *)

Ltac assign_step name l a b Hl Ha Hb :=
  rewrite ?run_seq, assign_node_field_run; cbn;
  destruct (at_node _ !! name) as [l|] eqn:Hl; [|intros [=]];
  match goal with
  | |- context [@lookup _ _ _ _ l ?h] => destruct (h !! l) as [a|] eqn:Ha; [|intros [=]]
  end;
  destruct (np_slice_assign a _) as [b|] eqn:Hb; [|intros [=]]; cbn.

Lemma save_outputs_ok r ss sk rl (s : State) :
  res (save_outputs r ss sk rl s) = Ok tt ->
  exists l1 l2 l3 l4 a1 a2 a3 a4 b1 b2 b3 b4 b5,
    let g := at_node (grid (world s)) in
    let h1 := <[l1 := b1]> (heap (world s)) in
    let h2 := <[l2 := b2]> h1 in
    let h3 := <[l3 := b3]> h2 in
    let h4 := <[l4 := b4]> h3 in
    g !! "flow__receiver_node" = Some l1 /\
    g !! "topographic__steepest_slope" = Some l2 /\
    g !! "flow__link_to_receiver_node" = Some l3 /\
    g !! "flow__sink_flag" = Some l4 /\
    heap (world s) !! l1 = Some a1 /\ np_slice_assign a1 (int_array r) = Ok b1 /\
    h1 !! l2 = Some a2 /\ np_slice_assign a2 (float_array ss) = Ok b2 /\
    h2 !! l3 = Some a3 /\ np_slice_assign a3 (int_array rl) = Ok b3 /\
    h3 !! l4 = Some a4 /\ np_slice_assign a4 (np_zeros_like_bool r) = Ok b4 /\
    np_index_assign b4 sk (VBool true) = Ok b5 /\
    final (save_outputs r ss sk rl s) =
      mk_state (self s) (mk_world (grid (world s)) (<[l4 := b5]> h4)).
Proof.
  unfold save_outputs.
  assign_step "flow__receiver_node" l1 a1 b1 Hl1 Ha1 Hb1.
  assign_step "topographic__steepest_slope" l2 a2 b2 Hl2 Ha2 Hb2.
  assign_step "flow__link_to_receiver_node" l3 a3 b3 Hl3 Ha3 Hb3.
  assign_step "flow__sink_flag" l4 a4 b4 Hl4 Ha4 Hb4.
  rewrite assign_node_field_at_run. cbn. rewrite Hl4, lookup_insert_eq.
  destruct (np_index_assign b4 sk (VBool true)) as [b5|] eqn:Hb5; [|intros [=]].
  intros _. exists l1, l2, l3, l4, a1, a2, a3, a4, b1, b2, b3, b4, b5.
  cbn. by repeat split.
Qed.

Lemma direct_flow_ok (L : Landlab) (s : State) :
  res (direct_flow s) = Ok tt ->
  exists z grad st r ss sk rl,
    heap (world s) !! elevs (self s) = Some z /\
    calc_grad_of_active_link (world s) z = Ok grad /\
    status_at_node (world s) = Ok st /\
    flow_directions z (_active_links (self s)) (_activelink_tail (self s))
      (_activelink_head (self s)) (PrimFloat.opp <$> grad) (world s) (baselevel_of st)
      = Ok (r, ss, sk, rl) /\
    call_flow_directions z (_active_links (self s)) (_activelink_tail (self s))
      (_activelink_head (self s)) (PrimFloat.opp <$> grad) (baselevel_of st)
      ∈ trace (direct_flow s) /\
    res (save_outputs r ss sk rl (mk_state (set_sink sk (self s)) (world s))) = Ok tt /\
    final (direct_flow s) =
      final (save_outputs r ss sk rl (mk_state (set_sink sk (self s)) (world s))).
Proof.
  rewrite direct_flow_run.
  destruct (heap (world s) !! elevs (self s)) as [z|] eqn:Hz; [|cbn; intros [=]].
  cbn zeta.
  destruct (calc_grad_of_active_link (world s) z) as [grad|] eqn:Hg; [|cbn; intros [=]].
  destruct (status_at_node (world s)) as [st|] eqn:Hst; [|cbn; intros [=]].
  destruct (flow_directions _ _ _ _ _ _ _) as [[[[r ss] sk] rl]|] eqn:Hfd;
    [|cbn; intros [=]].
  cbn. intros Hok. exists z, grad, st, r, ss, sk, rl.
  repeat split; try done. do 3 right. left.
Qed.

Lemma run_one_step_ok (L : Landlab) (s : State) :
  res (run_one_step s) = Ok tt ->
  res (check_and_update_BCs s) = Ok tt /\
  res (direct_flow (final (check_and_update_BCs s))) = Ok tt /\
  final (run_one_step s) = final (direct_flow (final (check_and_update_BCs s))) /\
  forall c, c ∈ trace (direct_flow (final (check_and_update_BCs s))) ->
            c ∈ trace (run_one_step s).
Proof.
  rewrite run_one_step_run.
  destruct (res (check_and_update_BCs s)) as [[]|]; [|intros [=]]. cbn.
  intros Hok. repeat split; try done. intros c Hc. apply elem_of_app. by right.
Qed.

(** ** The sink flags *)

Lemma np_index_nonneg (n : nat) (j : Z) (i : nat) :
  0 <= j -> np_index n j = Some i -> j = Z.of_nat i.
Proof.
  unfold np_index. intros Hj. repeat case_decide; intros [= <-]; lia.
Qed.

Lemma np_index_of_nat (n i : nat) : (i < n)%nat -> np_index n (Z.of_nat i) = Some i.
Proof.
  intros Hi. unfold np_index. rewrite decide_True by lia. by rewrite Nat2Z.id.
Qed.

Lemma zeros_all_false {A} (r : list A) (x : value) :
  x ∈ arr_data (np_zeros_like_bool r) -> x = VBool false.
Proof.
  cbn. intros (b & -> & Hb)%list_elem_of_fmap.
  by apply elem_of_replicate_inv in Hb as ->.
Qed.

(** After [flags[:] = zeros_like(receiver, dtype=bool)] and
    [flags[sink] = True], an entry is true exactly when an index of [sink]
    denotes its position, whatever the array held before. *)
Lemma sink_flags_lookup {A} (a4 : ndarray) (r : list A) (sk : list Z) (b4 b5 : ndarray)
    (i : nat) (v : value) :
  np_slice_assign a4 (np_zeros_like_bool r) = Ok b4 ->
  np_index_assign b4 sk (VBool true) = Ok b5 ->
  arr_data b5 !! i = Some v ->
  (truthy v = true <-> exists j, j ∈ sk /\ np_index (length (arr_data b5)) j = Some i).
Proof.
  intros Hb4 Hb5 Hv.
  pose proof (np_index_assign_shape _ _ _ _ Hb5) as [_ Hlen]. rewrite Hlen.
  unfold np_index_assign in Hb5.
  destruct (mapM _ sk) as [ps|] eqn:Hps; [|done]. injection Hb5 as <-.
  apply mapM_Some in Hps. cbn in Hv. rewrite foldl_insert_lookup in Hv.
  assert (i ∈ ps <-> exists j, j ∈ sk /\ np_index (length (arr_data b4)) j = Some i) as Hin.
  { split.
    - intros (k & Hk)%list_elem_of_lookup.
      destruct (Forall2_lookup_r _ _ _ _ _ Hps Hk) as (j & Hj & ?).
      exists j. split; [|done]. apply list_elem_of_lookup. eauto.
    - intros (j & (k & Hk)%list_elem_of_lookup & Hj).
      destruct (Forall2_lookup_l _ _ _ _ _ Hps Hk) as (p & Hp & Hp').
      assert (p = i) as -> by congruence. apply list_elem_of_lookup. eauto. }
  rewrite <- Hin. destruct (decide (i ∈ ps)) as [Hi|Hi].
  - destruct (arr_data b4 !! i); [|done]. injection Hv as <-.
    by rewrite astype_true_truthy.
  - destruct (np_slice_assign_lookup _ _ _ _ _ Hb4 Hv) as (x & -> & Hx).
    assert (x = VBool false) as ->.
    { apply (zeros_all_false r). destruct Hx as [Hx| ->].
      - apply list_elem_of_lookup; eauto.
      - apply list_elem_of_singleton. done. }
    rewrite astype_false_falsy. split; [done | by intros ?].
Qed.

(** C9: after a run that completes, ['flow__sink_flag'] is true at [i]
    exactly when [i] is in the sink array that [flow_directions] returned in
    this run (which the run also keeps as [self.sink]); what the field held
    before the run has no part in it.  numpy reads an index below zero from
    the end of the array, so for any integer array the entry is true exactly
    when an index of [sink] denotes its position; for an array of node ids,
    none of them negative, that is membership. *)
Theorem sink_flag_marks_the_sinks (L : Landlab) (s : State) :
  res (run_one_step s) = Ok tt ->
  exists z al tl hd link_slope bl receiver steepest_slope sk recvr_link flags,
    call_flow_directions z al tl hd link_slope bl ∈ trace (run_one_step s) /\
    flow_directions z al tl hd link_slope (world s) bl
      = Ok (receiver, steepest_slope, sk, recvr_link) /\
    sink (self (final (run_one_step s))) = Some sk /\
    at_node_array (final (run_one_step s)) "flow__sink_flag" = Some flags /\
    forall (i : nat) (v : value),
      arr_data flags !! i = Some v ->
      (truthy v = true <->
       exists j, j ∈ sk /\ np_index (length (arr_data flags)) j = Some i) /\
      (Forall (fun j => 0 <= j) sk -> (truthy v = true <-> Z.of_nat i ∈ sk)).
Proof.
  intros Hok. apply run_one_step_ok in Hok as (_ & Hd & -> & Htr).
  pose proof (check_and_update_BCs_world s) as Hw.
  set (s0 := final (check_and_update_BCs s)) in *.
  apply direct_flow_ok in Hd as (z & grad & st & r & ss & sk & rl & _ & _ & _ & Hfd & Hev
                                  & Hsave & ->).
  pose proof (save_outputs_frame r ss sk rl (mk_state (set_sink sk (self s0)) (world s0)))
    as [_ Hself].
  apply save_outputs_ok in Hsave
    as (l1 & l2 & l3 & l4 & a1 & a2 & a3 & a4 & b1 & b2 & b3 & b4 & b5 & Hsave).
  cbn zeta in Hsave.
  destruct Hsave as (_ & _ & _ & Hl4 & _ & _ & _ & _ & _ & _ & _ & Hb4 & Hb5 & Hfinal).
  rewrite Hw in Hfd.
  eexists z, _, _, _, _, _, r, ss, sk, rl, b5.
  split; [apply Htr, Hev|]. split; [exact Hfd|]. split; [by rewrite Hself|].
  split.
  { unfold at_node_array. rewrite Hfinal. cbn. cbn in Hl4. rewrite Hl4. cbn.
    apply lookup_insert_eq. }
  intros i v Hv.
  pose proof (sink_flags_lookup _ _ _ _ _ _ _ Hb4 Hb5 Hv) as Hiff.
  split; [exact Hiff|]. intros Hnn. rewrite Hiff. split.
  - intros (j & Hj & Hi).
    rewrite Forall_forall in Hnn.
    by rewrite <- (np_index_nonneg _ _ _ (Hnn j Hj) Hi).
  - intros Hi. exists (Z.of_nat i). split; [done|].
    apply np_index_of_nat. by eapply lookup_lt_Some.
Qed.

(** ** The modelled flow-direction routine *)

Lemma downhill_from_positive (n : Z) (lk : active_link) (r : Z) (x : float) (l : Z) :
  downhill_from n lk = Some (r, x, l) -> PrimFloat.ltb 0%float x = true.
Proof.
  destruct lk as [[[id t] h] s]. unfold downhill_from.
  destruct ((t =? n) && PrimFloat.ltb 0 s) eqn:H1.
  - intros [= _ <- _]. by apply andb_true_iff in H1 as [_ ?].
  - destruct ((h =? n) && PrimFloat.ltb 0 (- s)) eqn:H2; [|done].
    intros [= _ <- _]. by apply andb_true_iff in H2 as [_ ?].
Qed.

Lemma steeper_positive (best new : option descent) (r : Z) (x : float) (l : Z) :
  (forall r x l, best = Some (r, x, l) -> PrimFloat.ltb 0%float x = true) ->
  (forall r x l, new = Some (r, x, l) -> PrimFloat.ltb 0%float x = true) ->
  steeper best new = Some (r, x, l) -> PrimFloat.ltb 0%float x = true.
Proof.
  intros Hb Hn. unfold steeper.
  destruct best as [[[r0 s0] l0]|], new as [[[r1 s1] l1]|]; try done; eauto.
  destruct (PrimFloat.ltb s0 s1); eauto.
Qed.

Lemma steepest_descent_positive (n : Z) (links : list active_link)
    (r : Z) (x : float) (l : Z) :
  steepest_descent n links = Some (r, x, l) -> PrimFloat.ltb 0%float x = true.
Proof.
  unfold steepest_descent.
  assert (forall best,
    (forall r x l, best = Some (r, x, l) -> PrimFloat.ltb 0%float x = true) ->
    foldl (fun best lk => steeper best (downhill_from n lk)) best links = Some (r, x, l) ->
    PrimFloat.ltb 0%float x = true) as Hgen; [|by apply Hgen].
  induction links as [|lk links IH]; intros best Hbest; cbn.
  - apply Hbest.
  - apply IH. intros r' x' l'. apply steeper_positive; [done|].
    intros ???. apply downhill_from_positive.
Qed.

Lemma route_positive links bl (n r : Z) (x : float) (l : Z) :
  route links bl n = Some (r, x, l) -> PrimFloat.leb 0%float x = true.
Proof.
  unfold route. case_bool_decide; [done|].
  intros ?%steepest_descent_positive. by apply float_pos_nonneg.
Qed.

Section Model.
Context (elev : ndarray) (al tl hd : list Z) (link_slope : list float) (w : World)
  (bl : list Z) (r : list Z) (ss : list float) (sk rl : list Z).
Hypothesis Hmodel :
  flow_directions_model elev al tl hd link_slope w bl = Ok (r, ss, sk, rl).

Local Abbreviation to := (route (link_table al tl hd link_slope) bl).

Lemma model_sink (j : Z) :
  j ∈ sk -> 0 <= j < Z.of_nat (length (arr_data elev)) /\ to j = None.
Proof using Hmodel.
  injection Hmodel as _ _ <- _.
  intros [Hto Hj%elem_of_seqZ]%list_elem_of_filter. split; [lia | done].
Qed.

Lemma model_receiver (i : nat) (x : Z) :
  r !! i = Some x ->
  x = match to (Z.of_nat i) with Some (n, _, _) => n | None => Z.of_nat i end.
Proof using Hmodel.
  injection Hmodel as <- _ _ _. rewrite list_lookup_fmap.
  destruct (seqZ _ _ !! i) as [n|] eqn:Hn; [|done].
  apply lookup_seqZ in Hn as [-> _]. by intros [= <-].
Qed.

Lemma model_link (i : nat) (x : Z) :
  rl !! i = Some x ->
  x = match to (Z.of_nat i) with Some (_, _, l) => l | None => BAD_INDEX_VALUE end.
Proof using Hmodel.
  injection Hmodel as _ _ _ <-. rewrite list_lookup_fmap.
  destruct (seqZ _ _ !! i) as [n|] eqn:Hn; [|done].
  apply lookup_seqZ in Hn as [-> _]. by intros [= <-].
Qed.

Lemma model_slope (x : float) : x ∈ ss -> PrimFloat.leb 0%float x = true.
Proof using Hmodel.
  injection Hmodel as _ <- _ _.
  intros (n & -> & _)%list_elem_of_fmap.
  destruct (to n) as [[[? s] ?]|] eqn:Hn; [by eapply route_positive | done].
Qed.

Lemma model_lengths :
  length r = length (arr_data elev) /\ length rl = length (arr_data elev).
Proof using Hmodel.
  injection Hmodel as <- _ _ <-.
  rewrite !length_fmap, length_seqZ. lia.
Qed.

End Model.

(** ** The four fields after a run that completes *)

Lemma distinct_outputs_ne (g : ModelGrid) (n1 n2 : string) (l1 l2 : loc) :
  distinct_outputs g -> n1 ∈ output_fields -> n2 ∈ output_fields -> n1 ≠ n2 ->
  at_node g !! n1 = Some l1 -> at_node g !! n2 = Some l2 -> l1 ≠ l2.
Proof. intros Hd H1 H2 Hne Hl1 Hl2 ->. eauto. Qed.

Lemma completed_run_fields (L : Landlab) (s : State) :
  res (run_one_step s) = Ok tt ->
  distinct_outputs (grid (world s)) ->
  exists z al tl hd link_slope bl r ss sk rl a1 a2 a3 a4 b1 b2 b3 b4 b5,
    flow_directions z al tl hd link_slope (world s) bl = Ok (r, ss, sk, rl) /\
    np_slice_assign a1 (int_array r) = Ok b1 /\
    np_slice_assign a2 (float_array ss) = Ok b2 /\
    np_slice_assign a3 (int_array rl) = Ok b3 /\
    np_slice_assign a4 (np_zeros_like_bool r) = Ok b4 /\
    np_index_assign b4 sk (VBool true) = Ok b5 /\
    at_node_array (final (run_one_step s)) "flow__receiver_node" = Some b1 /\
    at_node_array (final (run_one_step s)) "topographic__steepest_slope" = Some b2 /\
    at_node_array (final (run_one_step s)) "flow__link_to_receiver_node" = Some b3 /\
    at_node_array (final (run_one_step s)) "flow__sink_flag" = Some b5.
Proof.
  intros Hok Hdist. apply run_one_step_ok in Hok as (_ & Hd & -> & _).
  pose proof (check_and_update_BCs_world s) as Hw.
  set (s0 := final (check_and_update_BCs s)) in *.
  apply direct_flow_ok in Hd as (z & grad & st & r & ss & sk & rl & _ & _ & _ & Hfd & _
                                  & Hsave & ->).
  apply save_outputs_ok in Hsave
    as (l1 & l2 & l3 & l4 & a1 & a2 & a3 & a4 & b1 & b2 & b3 & b4 & b5 & Hsave).
  cbn zeta in Hsave. cbn in Hsave. rewrite Hw in Hsave, Hfd.
  destruct Hsave as (Hl1 & Hl2 & Hl3 & Hl4 & _ & Hb1 & _ & Hb2 & _ & Hb3 & _ & Hb4 & Hb5
                     & Hfinal).
  assert (forall n, n ∈ output_fields <->
            n = "flow__receiver_node" \/ n = "topographic__steepest_slope" \/
            n = "flow__link_to_receiver_node" \/ n = "flow__sink_flag") as Hout.
  { intros n. unfold output_fields. rewrite !elem_of_cons, elem_of_nil. tauto. }
  assert (l1 ≠ l2) by (eapply (distinct_outputs_ne _ _ _ _ _ Hdist); [..|exact Hl1|exact Hl2];
                       rewrite ?Hout; auto 6; done).
  assert (l1 ≠ l3) by (eapply (distinct_outputs_ne _ _ _ _ _ Hdist); [..|exact Hl1|exact Hl3];
                       rewrite ?Hout; auto 6; done).
  assert (l1 ≠ l4) by (eapply (distinct_outputs_ne _ _ _ _ _ Hdist); [..|exact Hl1|exact Hl4];
                       rewrite ?Hout; auto 6; done).
  assert (l2 ≠ l3) by (eapply (distinct_outputs_ne _ _ _ _ _ Hdist); [..|exact Hl2|exact Hl3];
                       rewrite ?Hout; auto 6; done).
  assert (l2 ≠ l4) by (eapply (distinct_outputs_ne _ _ _ _ _ Hdist); [..|exact Hl2|exact Hl4];
                       rewrite ?Hout; auto 6; done).
  assert (l3 ≠ l4) by (eapply (distinct_outputs_ne _ _ _ _ _ Hdist); [..|exact Hl3|exact Hl4];
                       rewrite ?Hout; auto 6; done).
  eexists z, _, _, _, _, _, r, ss, sk, rl, a1, a2, a3, a4, b1, b2, b3, b4, b5.
  split; [exact Hfd|]. do 5 (split; [done|]).
  unfold at_node_array. rewrite Hw, Hfinal. cbn. rewrite Hl1, Hl2, Hl3, Hl4. cbn.
  repeat split.
  - by rewrite !lookup_insert_ne, lookup_insert_eq by done.
  - by rewrite !lookup_insert_ne, lookup_insert_eq by done.
  - by rewrite !lookup_insert_ne, lookup_insert_eq by done.
  - by rewrite lookup_insert_eq.
Qed.

Lemma broadcast_source {A} (src : list A) (i : nat) (y : A) :
  src !! i = Some y \/ src = [y] -> (i < length src)%nat -> src !! i = Some y.
Proof.
  intros [?| ->] Hi; [done|]. cbn in Hi. by replace i with 0%nat by lia.
Qed.

(** With the documented example as data, the model gives the four arrays of
    the docstring. *)
Lemma doc_example_arrays :
  res DocExample.after_one_step = Ok tt /\
  DocExample.at_node_after "flow__receiver_node" = Some DocExample.flow__receiver_node /\
  DocExample.at_node_after "topographic__steepest_slope"
    = Some DocExample.topographic__steepest_slope /\
  DocExample.at_node_after "flow__link_to_receiver_node"
    = Some DocExample.flow__link_to_receiver_node /\
  DocExample.at_node_after "flow__sink_flag" = Some DocExample.flow__sink_flag.
Proof. vm_compute. by repeat split. Qed.

(** C3: with the flow-direction routine as the spec describes it, after a
    run that completes every node flagged in ['flow__sink_flag'] has its own
    id in ['flow__receiver_node'] (an integer array, one array object per
    output field). *)
Theorem sinks_receive_themselves (L : Landlab) (s : State) (recv flags : ndarray) :
  res (@run_one_step (with_flow_directions_model L) s) = Ok tt ->
  distinct_outputs (grid (world s)) ->
  at_node_array (final (@run_one_step (with_flow_directions_model L) s))
    "flow__receiver_node" = Some recv ->
  arr_dtype recv = dt_int ->
  at_node_array (final (@run_one_step (with_flow_directions_model L) s))
    "flow__sink_flag" = Some flags ->
  forall (n : nat) (v x : value),
    arr_data flags !! n = Some v -> truthy v = true ->
    arr_data recv !! n = Some x ->
    x = VInt (Z.of_nat n).
Proof.
  intros Hok Hdist Hrecv Hdt Hflags n v x Hv Htrue Hx.
  destruct (completed_run_fields _ s Hok Hdist)
    as (z & al & tl & hd & ls & bl & r & ss & sk & rl & a1 & a2 & a3 & a4
        & b1 & b2 & b3 & b4 & b5 & Hfd & Hb1 & _ & _ & Hb4 & Hb5 & H1 & _ & _ & H4).
  cbn in Hfd. rewrite H1 in Hrecv. rewrite H4 in Hflags.
  injection Hrecv as ->. injection Hflags as ->.
  apply (sink_flags_lookup _ _ _ _ _ _ _ Hb4 Hb5 Hv) in Htrue as (j & Hj & Hn).
  destruct (model_sink _ _ _ _ _ _ _ _ _ _ _ Hfd j Hj) as [Hrange Hto].
  apply np_index_nonneg in Hn as ->; [|lia].
  destruct (np_slice_assign_lookup _ _ _ _ _ Hb1 Hx) as (y & -> & Hy).
  destruct (np_slice_assign_shape _ _ _ Hb1) as [<- _]. rewrite Hdt.
  apply broadcast_source in Hy.
  - cbn in Hy. rewrite list_lookup_fmap in Hy.
    destruct (r !! n) as [y'|] eqn:Hy'; [|done]. injection Hy as <-.
    apply (model_receiver _ _ _ _ _ _ _ _ _ _ _ Hfd) in Hy'.
    rewrite Hto in Hy'. by subst y'.
  - cbn. rewrite length_fmap.
    destruct (model_lengths _ _ _ _ _ _ _ _ _ _ _ Hfd) as [-> _]. lia.
Qed.

(** C4: with the flow-direction routine as the spec describes it, after a
    run that completes every node flagged in ['flow__sink_flag'] has
    [BAD_INDEX_VALUE] in ['flow__link_to_receiver_node'], and that value is
    the id of no link. *)
Theorem sinks_have_no_link (L : Landlab) (s : State) (link flags : ndarray) :
  res (@run_one_step (with_flow_directions_model L) s) = Ok tt ->
  distinct_outputs (grid (world s)) ->
  at_node_array (final (@run_one_step (with_flow_directions_model L) s))
    "flow__link_to_receiver_node" = Some link ->
  arr_dtype link = dt_int ->
  at_node_array (final (@run_one_step (with_flow_directions_model L) s))
    "flow__sink_flag" = Some flags ->
  (forall (n : nat) (v x : value),
     arr_data flags !! n = Some v -> truthy v = true ->
     arr_data link !! n = Some x ->
     x = VInt BAD_INDEX_VALUE) /\
  (forall id : nat, Z.of_nat id ≠ BAD_INDEX_VALUE).
Proof.
  intros Hok Hdist Hlink Hdt Hflags. split; [|unfold BAD_INDEX_VALUE; lia].
  intros n v x Hv Htrue Hx.
  destruct (completed_run_fields _ s Hok Hdist)
    as (z & al & tl & hd & ls & bl & r & ss & sk & rl & a1 & a2 & a3 & a4
        & b1 & b2 & b3 & b4 & b5 & Hfd & _ & _ & Hb3 & Hb4 & Hb5 & _ & _ & H3 & H4).
  cbn in Hfd. rewrite H3 in Hlink. rewrite H4 in Hflags.
  injection Hlink as ->. injection Hflags as ->.
  apply (sink_flags_lookup _ _ _ _ _ _ _ Hb4 Hb5 Hv) in Htrue as (j & Hj & Hn).
  destruct (model_sink _ _ _ _ _ _ _ _ _ _ _ Hfd j Hj) as [Hrange Hto].
  apply np_index_nonneg in Hn as ->; [|lia].
  destruct (np_slice_assign_lookup _ _ _ _ _ Hb3 Hx) as (y & -> & Hy).
  destruct (np_slice_assign_shape _ _ _ Hb3) as [<- _]. rewrite Hdt.
  apply broadcast_source in Hy.
  - cbn in Hy. rewrite list_lookup_fmap in Hy.
    destruct (rl !! n) as [y'|] eqn:Hy'; [|done]. injection Hy as <-.
    apply (model_link _ _ _ _ _ _ _ _ _ _ _ Hfd) in Hy'.
    rewrite Hto in Hy'. by subst y'.
  - cbn. rewrite length_fmap.
    destruct (model_lengths _ _ _ _ _ _ _ _ _ _ _ Hfd) as [_ ->]. lia.
Qed.

(** C5: with the flow-direction routine as the spec describes it, after a
    run that completes no entry of ['topographic__steepest_slope'] (a float
    array) is negative, whatever the elevations and the link gradients. *)
Theorem steepest_slopes_are_non_negative (L : Landlab) (s : State) (slope : ndarray) :
  res (@run_one_step (with_flow_directions_model L) s) = Ok tt ->
  distinct_outputs (grid (world s)) ->
  at_node_array (final (@run_one_step (with_flow_directions_model L) s))
    "topographic__steepest_slope" = Some slope ->
  arr_dtype slope = dt_float ->
  forall (n : nat) (x : value), arr_data slope !! n = Some x -> non_negative x = true.
Proof.
  intros Hok Hdist Hslope Hdt n x Hx.
  destruct (completed_run_fields _ s Hok Hdist)
    as (z & al & tl & hd & ls & bl & r & ss & sk & rl & a1 & a2 & a3 & a4
        & b1 & b2 & b3 & b4 & b5 & Hfd & _ & Hb2 & _ & _ & _ & _ & H2 & _ & _).
  cbn in Hfd. rewrite H2 in Hslope. injection Hslope as ->.
  destruct (np_slice_assign_lookup _ _ _ _ _ Hb2 Hx) as (y & -> & Hy).
  destruct (np_slice_assign_shape _ _ _ Hb2) as [<- _]. rewrite Hdt.
  assert (y ∈ arr_data (float_array ss)) as Hin.
  { destruct Hy as [Hy | ->]; [by eapply list_elem_of_lookup_2 | by left]. }
  cbn in Hin. apply list_elem_of_fmap in Hin as (f & -> & Hf). cbn.
  by eapply model_slope.
Qed.

(** ** The documented example as witness *)

Lemma doc_example_distinct_outputs : distinct_outputs (grid (world DocExample.fd)).
Proof.
  intros n1 n2 l H1 H2 Hl1 Hl2. unfold output_fields in H1, H2.
  repeat (apply elem_of_cons in H1 as [->|H1]); [..|by apply elem_of_nil in H1];
    (repeat (apply elem_of_cons in H2 as [->|H2]); [..|by apply elem_of_nil in H2]);
    try reflexivity; vm_compute in Hl1, Hl2; congruence.
Qed.

Lemma sinks_receive_themselves_witness :
  (arr_data DocExample.flow__sink_flag !! 0%nat = Some (VInt 1) /\
   truthy (VInt 1) = true /\
   arr_data DocExample.flow__receiver_node !! 0%nat = Some (VInt 0)) /\
  VInt 0 = VInt (Z.of_nat 0).
Proof.
  split; [by repeat split|].
  refine (sinks_receive_themselves DocExample.landlab DocExample.fd
            DocExample.flow__receiver_node DocExample.flow__sink_flag
            _ doc_example_distinct_outputs _ _ _ 0%nat (VInt 1) (VInt 0) _ _ _);
    try reflexivity; vm_compute; reflexivity.
Defined.

Lemma sinks_have_no_link_witness :
  (arr_data DocExample.flow__sink_flag !! 6%nat = Some (VInt 1) /\
   truthy (VInt 1) = true /\
   arr_data DocExample.flow__link_to_receiver_node !! 6%nat = Some (VInt (-1))) /\
  VInt (-1) = VInt BAD_INDEX_VALUE.
Proof.
  split; [by repeat split|].
  refine (proj1 (sinks_have_no_link DocExample.landlab DocExample.fd
                   DocExample.flow__link_to_receiver_node DocExample.flow__sink_flag
                   _ doc_example_distinct_outputs _ _ _) 6%nat (VInt 1) (VInt (-1)) _ _ _);
    try reflexivity; vm_compute; reflexivity.
Defined.

Lemma steepest_slopes_are_non_negative_witness :
  arr_data DocExample.topographic__steepest_slope !! 4%nat = Some (VFloat 1.5) /\
  non_negative (VFloat 1.5) = true.
Proof.
  split; [reflexivity|].
  refine (steepest_slopes_are_non_negative DocExample.landlab DocExample.fd
            DocExample.topographic__steepest_slope
            _ doc_example_distinct_outputs _ _ 4%nat (VFloat 1.5) _);
    try reflexivity; vm_compute; reflexivity.
Defined.

Lemma baselevel_nodes_are_the_fixed_boundaries_witness :
  call_flow_directions (float_array DocExample.elevation) DocExample.active_links
    DocExample.activelink_tail DocExample.activelink_head DocExample.link_slope
    DocExample.baselevel_nodes
    ∈ trace (@run_one_step DocExample.landlab DocExample.fd) /\
  exists st, @status_at_node DocExample.landlab (world DocExample.fd) = Ok st /\
    forall n : Z,
      n ∈ DocExample.baselevel_nodes <->
      exists c, 0 <= n /\ st !! Z.to_nat n = Some c /\
        (c = @FIXED_VALUE_BOUNDARY DocExample.landlab \/
         c = @FIXED_GRADIENT_BOUNDARY DocExample.landlab).
Proof.
  assert (call_flow_directions (float_array DocExample.elevation) DocExample.active_links
            DocExample.activelink_tail DocExample.activelink_head DocExample.link_slope
            DocExample.baselevel_nodes
            ∈ trace (@run_one_step DocExample.landlab DocExample.fd)) as Hcall.
  { vm_compute. repeat constructor. }
  split; [exact Hcall|].
  exact (baselevel_nodes_are_the_fixed_boundaries DocExample.landlab DocExample.fd
           _ _ _ _ _ _ Hcall).
Defined.

Lemma sink_flag_marks_the_sinks_witness :
  res (@run_one_step DocExample.landlab DocExample.fd) = Ok tt /\
  exists z al tl hd link_slope bl receiver steepest_slope sk recvr_link flags,
    call_flow_directions z al tl hd link_slope bl
      ∈ trace (@run_one_step DocExample.landlab DocExample.fd) /\
    @flow_directions DocExample.landlab z al tl hd link_slope (world DocExample.fd) bl
      = Ok (receiver, steepest_slope, sk, recvr_link) /\
    sink (self (final (@run_one_step DocExample.landlab DocExample.fd))) = Some sk /\
    at_node_array (final (@run_one_step DocExample.landlab DocExample.fd))
      "flow__sink_flag" = Some flags /\
    forall (i : nat) (v : value),
      arr_data flags !! i = Some v ->
      (truthy v = true <->
       exists j, j ∈ sk /\ np_index (length (arr_data flags)) j = Some i) /\
      (Forall (fun j => 0 <= j) sk -> (truthy v = true <-> Z.of_nat i ∈ sk)).
Proof.
  assert (res (@run_one_step DocExample.landlab DocExample.fd) = Ok tt) as Hok.
  { vm_compute. reflexivity. }
  split; [exact Hok|].
  exact (sink_flag_marks_the_sinks DocExample.landlab DocExample.fd Hok).
Defined.

Lemma run_one_step_propagates_witness :
  @run_one_step DocExample.failing_landlab DocExample.fd =
  mk_outcome (Raise DocExample.overflow) DocExample.fd
    (trace (@check_and_update_BCs DocExample.failing_landlab DocExample.fd)
       ++ [call_calc_grad_of_active_link (float_array DocExample.elevation);
           get_status_at_node; get_status_at_node;
           call_flow_directions (float_array DocExample.elevation)
             (_active_links (self DocExample.fd)) (_activelink_tail (self DocExample.fd))
             (_activelink_head (self DocExample.fd))
             (PrimFloat.opp <$>
                [1.5; 0.5; 1.5; 0.5; 1; 1; 1; 1.5; 0.5; 1.5; 0.5; 1.5; 0.5; 1; 1; 1; 1;
                 0.5; 1.5; 0.5; 1.5; 0.5; 1.5; 1; 1; 1; -0.5; 0.5; -0.5; 0.5]%float)
             (@baselevel_of DocExample.failing_landlab DocExample.status)]).
Proof.
  refine (proj2 (proj2 (proj2 (run_one_step_propagates DocExample.failing_landlab
                                 DocExample.fd DocExample.overflow)
                          DocExample.fd (float_array DocExample.elevation) _ _ _)
                   _ _)
            DocExample.status _ _);
    vm_compute; reflexivity.
Defined.

(** * Further properties of the constructor and of [run_one_step] *)

(** ** Construction when the inherited constructor fails *)

(** X1: an exception of the inherited constructor leaves [__init__] as it
    was raised, for a grid of any class: the class of the grid is checked only
    afterwards, so on a grid that is not a [VoronoiDelaunayGrid] it is this
    exception, not [NotImplementedError], that the caller sees.  What the
    inherited constructor did to the grid before raising stays. *)
Theorem init_propagates (L : Landlab) (surface : Surface) (w : World) (e : exn) :
  (FlowDirectorToOne_init surface w).1 = Raise e ->
  res (__init__ surface w) = Raise e /\
  trace (__init__ surface w) = [call_super_init surface] /\
  at_node (grid (final (__init__ surface w))) = (FlowDirectorToOne_init surface w).2.1 /\
  heap (final (__init__ surface w)) = (FlowDirectorToOne_init surface w).2.2.
Proof.
  intros Hbase. unfold __init__, super_init. run_unfold.
  destruct (FlowDirectorToOne_init surface w) as [r [fields h]]. cbn in Hbase. subst r.
  done.
Qed.

Lemma init_propagates_witness :
  (@FlowDirectorToOne_init DocExample.landlab (field_name "no_such_field") DocExample.rmg).1
    = Raise (Exception "FieldError" "surface") /\
  res (@__init__ DocExample.landlab (field_name "no_such_field") DocExample.rmg)
    = Raise (Exception "FieldError" "surface").
Proof.
  assert ((@FlowDirectorToOne_init DocExample.landlab (field_name "no_such_field")
             DocExample.rmg).1 = Raise (Exception "FieldError" "surface")) as Hbase.
  { vm_compute. reflexivity. }
  split; [exact Hbase|].
  exact (proj1 (init_propagates DocExample.landlab (field_name "no_such_field")
                  DocExample.rmg _ Hbase)).
Defined.

(** ** The calls of a run that completes *)

Lemma direct_flow_ok_trace (L : Landlab) (s : State) :
  res (direct_flow s) = Ok tt ->
  exists z grad st,
    heap (world s) !! elevs (self s) = Some z /\
    calc_grad_of_active_link (world s) z = Ok grad /\
    status_at_node (world s) = Ok st /\
    trace (direct_flow s) =
      [call_calc_grad_of_active_link z; get_status_at_node; get_status_at_node;
       call_flow_directions z (_active_links (self s)) (_activelink_tail (self s))
         (_activelink_head (self s)) (PrimFloat.opp <$> grad) (baselevel_of st)].
Proof.
  rewrite direct_flow_run.
  destruct (heap (world s) !! elevs (self s)) as [z|] eqn:Hz; [|cbn; intros [=]].
  cbn zeta.
  destruct (calc_grad_of_active_link (world s) z) as [grad|] eqn:Hg; [|cbn; intros [=]].
  destruct (status_at_node (world s)) as [st|] eqn:Hst; [|cbn; intros [=]].
  destruct (flow_directions _ _ _ _ _ _ _) as [[[[r ss] sk] rl]|] eqn:Hfd;
    [|cbn; intros [=]].
  cbn. intros _. by exists z, grad, st.
Qed.

(** X2: a run that completes has called each collaborator once, in the order of
    the source: [updated_boundary_conditions] first and only when the codes
    differ, then [calc_grad_of_active_link], [status_at_node] (read twice)
    and [flow_directions].  The elevations passed to [flow_directions] are
    the array passed to [calc_grad_of_active_link]; the link slopes are the
    gradients it returned, each negated; the links are the ones cached on
    the component after step 0. *)
Theorem completed_run_calls (L : Landlab) (s : State) :
  res (run_one_step s) = Ok tt ->
  exists z grad st,
    heap (world s) !! elevs (self (final (check_and_update_BCs s))) = Some z /\
    calc_grad_of_active_link (world s) z = Ok grad /\
    status_at_node (world s) = Ok st /\
    trace (run_one_step s) =
      ((if decide (_bc_set_code (self s) ≠ bc_set_code (grid (world s)))
        then [call_updated_boundary_conditions] else [])
      ++ [call_calc_grad_of_active_link z; get_status_at_node; get_status_at_node;
          call_flow_directions z
            (_active_links (self (final (check_and_update_BCs s))))
            (_activelink_tail (self (final (check_and_update_BCs s))))
            (_activelink_head (self (final (check_and_update_BCs s))))
            (PrimFloat.opp <$> grad) (baselevel_of st)])%list.
Proof.
  intros Hok. pose proof Hok as Hok'.
  apply run_one_step_ok in Hok' as (Hc & Hd & _ & _).
  apply direct_flow_ok_trace in Hd as (z & grad & st & Hz & Hg & Hst & Htr).
  rewrite check_and_update_BCs_world in Hz, Hg, Hst.
  exists z, grad, st. repeat split; try done.
  rewrite run_one_step_run, Hc. cbn.
  by rewrite Htr, check_and_update_BCs_trace.
Qed.

Lemma completed_run_calls_witness :
  res (@run_one_step DocExample.landlab DocExample.fd) = Ok tt /\
  exists z grad st,
    heap (world DocExample.fd)
      !! elevs (self (final (@check_and_update_BCs DocExample.landlab DocExample.fd)))
      = Some z /\
    @calc_grad_of_active_link DocExample.landlab (world DocExample.fd) z = Ok grad /\
    @status_at_node DocExample.landlab (world DocExample.fd) = Ok st /\
    trace (@run_one_step DocExample.landlab DocExample.fd) =
      ((if decide (_bc_set_code (self DocExample.fd)
                   ≠ bc_set_code (grid (world DocExample.fd)))
        then [call_updated_boundary_conditions] else [])
      ++ [call_calc_grad_of_active_link z; get_status_at_node; get_status_at_node;
          call_flow_directions z
            (_active_links (self (final (@check_and_update_BCs DocExample.landlab
                                           DocExample.fd))))
            (_activelink_tail (self (final (@check_and_update_BCs DocExample.landlab
                                              DocExample.fd))))
            (_activelink_head (self (final (@check_and_update_BCs DocExample.landlab
                                              DocExample.fd))))
            (PrimFloat.opp <$> grad) (@baselevel_of DocExample.landlab st)])%list.
Proof.
  assert (res (@run_one_step DocExample.landlab DocExample.fd) = Ok tt) as Hok.
  { vm_compute. reflexivity. }
  split; [exact Hok|].
  exact (completed_run_calls DocExample.landlab DocExample.fd Hok).
Defined.

(** ** What a run that completes has stored *)

Lemma broadcast_to_fmap {A B} (f : A -> B) (n : nat) (src : list A) (l' : list B) :
  broadcast_to n (f <$> src) = Ok l' ->
  exists l, broadcast_to n src = Ok l /\ l' = f <$> l.
Proof.
  unfold broadcast_to. rewrite length_fmap. case_decide.
  - intros [= <-]. eauto.
  - destruct src as [|x [|]]; intros [= <-]. exists (replicate n x).
    split; [done|]. by rewrite fmap_replicate.
Qed.

Lemma np_slice_assign_int (dst : ndarray) (r : list Z) (b : ndarray) :
  np_slice_assign dst (int_array r) = Ok b -> arr_dtype b = dt_int ->
  exists l, broadcast_to (length (arr_data b)) r = Ok l /\ arr_data b = VInt <$> l.
Proof.
  intros Hb Hdt. destruct (np_slice_assign_shape _ _ _ Hb) as [Hd Hn].
  rewrite Hn. unfold np_slice_assign in Hb.
  destruct (broadcast_to _ _) as [l'|] eqn:Hl'; [|done]. injection Hb as <-.
  apply broadcast_to_fmap in Hl' as (l & Hl & ->). exists l. split; [done|].
  cbn in *. rewrite Hdt, <- list_fmap_compose. by apply list_fmap_ext.
Qed.

Lemma np_slice_assign_float (dst : ndarray) (ss : list float) (b : ndarray) :
  np_slice_assign dst (float_array ss) = Ok b -> arr_dtype b = dt_float ->
  exists l, broadcast_to (length (arr_data b)) ss = Ok l /\ arr_data b = VFloat <$> l.
Proof.
  intros Hb Hdt. destruct (np_slice_assign_shape _ _ _ Hb) as [Hd Hn].
  rewrite Hn. unfold np_slice_assign in Hb.
  destruct (broadcast_to _ _) as [l'|] eqn:Hl'; [|done]. injection Hb as <-.
  apply broadcast_to_fmap in Hl' as (l & Hl & ->). exists l. split; [done|].
  cbn in *. rewrite Hdt, <- list_fmap_compose. by apply list_fmap_ext.
Qed.

(** The fields of a completed run, with the call of [flow_directions] they
    come from. *)
Lemma completed_run_call_and_fields (L : Landlab) (s : State) :
  res (run_one_step s) = Ok tt ->
  distinct_outputs (grid (world s)) ->
  exists z al tl hd link_slope bl r ss sk rl a1 a2 a3 b1 b2 b3,
    call_flow_directions z al tl hd link_slope bl ∈ trace (run_one_step s) /\
    flow_directions z al tl hd link_slope (world s) bl = Ok (r, ss, sk, rl) /\
    np_slice_assign a1 (int_array r) = Ok b1 /\
    np_slice_assign a2 (float_array ss) = Ok b2 /\
    np_slice_assign a3 (int_array rl) = Ok b3 /\
    at_node_array (final (run_one_step s)) "flow__receiver_node" = Some b1 /\
    at_node_array (final (run_one_step s)) "topographic__steepest_slope" = Some b2 /\
    at_node_array (final (run_one_step s)) "flow__link_to_receiver_node" = Some b3.
Proof.
  intros Hok Hdist. apply run_one_step_ok in Hok as (_ & Hd & -> & Htr).
  pose proof (check_and_update_BCs_world s) as Hw.
  set (s0 := final (check_and_update_BCs s)) in *.
  apply direct_flow_ok in Hd as (z & grad & st & r & ss & sk & rl & _ & _ & _ & Hfd & Hev
                                  & Hsave & ->).
  apply save_outputs_ok in Hsave
    as (l1 & l2 & l3 & l4 & a1 & a2 & a3 & a4 & b1 & b2 & b3 & b4 & b5 & Hsave).
  cbn zeta in Hsave. cbn in Hsave. rewrite Hw in Hsave, Hfd.
  destruct Hsave as (Hl1 & Hl2 & Hl3 & Hl4 & _ & Hb1 & _ & Hb2 & _ & Hb3 & _ & _ & _
                     & Hfinal).
  assert (forall n1 n2 k1 k2, n1 ∈ output_fields -> n2 ∈ output_fields -> n1 ≠ n2 ->
            at_node (grid (world s)) !! n1 = Some k1 ->
            at_node (grid (world s)) !! n2 = Some k2 -> k1 ≠ k2) as Hne.
  { intros n1 n2 k1 k2 ?????. by eapply (distinct_outputs_ne _ n1 n2). }
  assert (l1 ≠ l2) by (eapply Hne; [| | |exact Hl1|exact Hl2]; [set_solver..|done]).
  assert (l1 ≠ l3) by (eapply Hne; [| | |exact Hl1|exact Hl3]; [set_solver..|done]).
  assert (l1 ≠ l4) by (eapply Hne; [| | |exact Hl1|exact Hl4]; [set_solver..|done]).
  assert (l2 ≠ l3) by (eapply Hne; [| | |exact Hl2|exact Hl3]; [set_solver..|done]).
  assert (l2 ≠ l4) by (eapply Hne; [| | |exact Hl2|exact Hl4]; [set_solver..|done]).
  assert (l3 ≠ l4) by (eapply Hne; [| | |exact Hl3|exact Hl4]; [set_solver..|done]).
  eexists z, _, _, _, _, _, r, ss, sk, rl, a1, a2, a3, b1, b2, b3.
  split; [apply Htr, Hev|]. split; [exact Hfd|]. do 3 (split; [done|]).
  unfold at_node_array. rewrite Hw, Hfinal. cbn. rewrite Hl1, Hl2, Hl3. cbn.
  repeat split; by rewrite !lookup_insert_ne, lookup_insert_eq by done.
Qed.

(** X3: after a run that completes, the receiver, slope and link fields hold
    what [flow_directions] returned in this run, element for element: an
    integer receiver field the receivers, a float slope field the steepest
    slopes, an integer link field the links.  (An array of one element is
    repeated over the field, which is numpy's rule for [a[:] = b].) *)
Theorem outputs_are_what_flow_directions_returned (L : Landlab) (s : State) :
  res (run_one_step s) = Ok tt ->
  distinct_outputs (grid (world s)) ->
  exists z al tl hd link_slope bl receiver steepest_slope sk recvr_link,
    call_flow_directions z al tl hd link_slope bl ∈ trace (run_one_step s) /\
    flow_directions z al tl hd link_slope (world s) bl
      = Ok (receiver, steepest_slope, sk, recvr_link) /\
    (forall recv,
       at_node_array (final (run_one_step s)) "flow__receiver_node" = Some recv ->
       arr_dtype recv = dt_int ->
       exists l, broadcast_to (length (arr_data recv)) receiver = Ok l /\
                 arr_data recv = VInt <$> l) /\
    (forall slope,
       at_node_array (final (run_one_step s)) "topographic__steepest_slope" = Some slope ->
       arr_dtype slope = dt_float ->
       exists l, broadcast_to (length (arr_data slope)) steepest_slope = Ok l /\
                 arr_data slope = VFloat <$> l) /\
    (forall link,
       at_node_array (final (run_one_step s)) "flow__link_to_receiver_node" = Some link ->
       arr_dtype link = dt_int ->
       exists l, broadcast_to (length (arr_data link)) recvr_link = Ok l /\
                 arr_data link = VInt <$> l).
Proof.
  intros Hok Hdist.
  destruct (completed_run_call_and_fields _ s Hok Hdist)
    as (z & al & tl & hd & ls & bl & r & ss & sk & rl & a1 & a2 & a3 & b1 & b2 & b3
        & Hev & Hfd & Hb1 & Hb2 & Hb3 & H1 & H2 & H3).
  exists z, al, tl, hd, ls, bl, r, ss, sk, rl.
  split; [done|]. split; [done|]. repeat split.
  - intros recv Hrecv. rewrite H1 in Hrecv. injection Hrecv as <-.
    by eapply np_slice_assign_int.
  - intros slope Hslope. rewrite H2 in Hslope. injection Hslope as <-.
    by eapply np_slice_assign_float.
  - intros link Hlink. rewrite H3 in Hlink. injection Hlink as <-.
    by eapply np_slice_assign_int.
Qed.

Lemma outputs_are_what_flow_directions_returned_witness :
  (res (@run_one_step DocExample.landlab DocExample.fd) = Ok tt /\
   distinct_outputs (grid (world DocExample.fd))) /\
  exists z al tl hd link_slope bl receiver steepest_slope sk recvr_link,
    call_flow_directions z al tl hd link_slope bl
      ∈ trace (@run_one_step DocExample.landlab DocExample.fd) /\
    @flow_directions DocExample.landlab z al tl hd link_slope (world DocExample.fd) bl
      = Ok (receiver, steepest_slope, sk, recvr_link) /\
    (forall recv,
       at_node_array (final (@run_one_step DocExample.landlab DocExample.fd))
         "flow__receiver_node" = Some recv ->
       arr_dtype recv = dt_int ->
       exists l, broadcast_to (length (arr_data recv)) receiver = Ok l /\
                 arr_data recv = VInt <$> l) /\
    (forall slope,
       at_node_array (final (@run_one_step DocExample.landlab DocExample.fd))
         "topographic__steepest_slope" = Some slope ->
       arr_dtype slope = dt_float ->
       exists l, broadcast_to (length (arr_data slope)) steepest_slope = Ok l /\
                 arr_data slope = VFloat <$> l) /\
    (forall link,
       at_node_array (final (@run_one_step DocExample.landlab DocExample.fd))
         "flow__link_to_receiver_node" = Some link ->
       arr_dtype link = dt_int ->
       exists l, broadcast_to (length (arr_data link)) recvr_link = Ok l /\
                 arr_data link = VInt <$> l).
Proof.
  assert (res (@run_one_step DocExample.landlab DocExample.fd) = Ok tt) as Hok.
  { vm_compute. reflexivity. }
  split; [split; [exact Hok | exact doc_example_distinct_outputs]|].
  exact (outputs_are_what_flow_directions_returned DocExample.landlab DocExample.fd
           Hok doc_example_distinct_outputs).
Defined.

(** ** What a run needs to complete *)

Lemma insert_is_Some_inv (h : gmap loc ndarray) (l l' : loc) (b : ndarray) :
  is_Some (h !! l) -> is_Some (<[l := b]> h !! l') -> is_Some (h !! l').
Proof.
  intros Hl. destruct (decide (l = l')) as [<-|Hne]; [done|].
  by rewrite lookup_insert_ne.
Qed.

Lemma np_index_assign_bounds (dst : ndarray) (idx : list Z) (v : value) (a : ndarray) :
  np_index_assign dst idx v = Ok a ->
  Forall (fun j => - Z.of_nat (length (arr_data a)) <= j < Z.of_nat (length (arr_data a)))
    idx.
Proof.
  intros Ha. destruct (np_index_assign_shape _ _ _ _ Ha) as [_ ->].
  unfold np_index_assign in Ha. destruct (mapM _ idx) as [ps|] eqn:Hps; [|done].
  apply mapM_Some in Hps. apply Forall_forall. intros j (k & Hk)%list_elem_of_lookup.
  destruct (Forall2_lookup_l _ _ _ _ _ Hps Hk) as (p & _ & Hp).
  unfold np_index in Hp. repeat case_decide; [lia | lia | done].
Qed.

(** X4: a run completes only on a grid that has the four output fields, and
    only when every index of the sink array lies within the flag field,
    counted from the start or (below zero) from the end: with a field
    missing or an index out of range the run raises instead. *)
Theorem completed_run_had_fields_and_sinks_in_range (L : Landlab) (s : State) :
  res (run_one_step s) = Ok tt ->
  (forall name, name ∈ output_fields -> is_Some (at_node_array s name)) /\
  exists sk flags,
    sink (self (final (run_one_step s))) = Some sk /\
    at_node_array (final (run_one_step s)) "flow__sink_flag" = Some flags /\
    Forall (fun j => - Z.of_nat (length (arr_data flags)) <= j
                     < Z.of_nat (length (arr_data flags))) sk.
Proof.
  intros Hok. apply run_one_step_ok in Hok as (_ & Hd & -> & _).
  pose proof (check_and_update_BCs_world s) as Hw.
  set (s0 := final (check_and_update_BCs s)) in *.
  apply direct_flow_ok in Hd as (z & grad & st & r & ss & sk & rl & _ & _ & _ & _ & _
                                  & Hsave & ->).
  pose proof (save_outputs_frame r ss sk rl (mk_state (set_sink sk (self s0)) (world s0)))
    as [_ Hself].
  apply save_outputs_ok in Hsave
    as (l1 & l2 & l3 & l4 & a1 & a2 & a3 & a4 & b1 & b2 & b3 & b4 & b5 & Hsave).
  cbn zeta in Hsave. cbn in Hsave. rewrite Hw in Hsave.
  destruct Hsave as (Hl1 & Hl2 & Hl3 & Hl4 & Ha1 & _ & Ha2 & _ & Ha3 & _ & Ha4 & _ & Hb5
                     & Hfinal).
  assert (is_Some (heap (world s) !! l1)) as Hs1 by eauto.
  assert (is_Some (heap (world s) !! l2)) as Hs2 by eauto using insert_is_Some_inv.
  assert (is_Some (heap (world s) !! l3)) as Hs3.
  { eapply insert_is_Some_inv; [exact Hs1|].
    eapply insert_is_Some_inv; [|by eexists; exact Ha3]. eauto. }
  assert (is_Some (heap (world s) !! l4)) as Hs4.
  { eapply insert_is_Some_inv; [exact Hs1|].
    eapply insert_is_Some_inv; [by eexists; exact Ha2|].
    eapply insert_is_Some_inv; [|by eexists; exact Ha4]. eauto. }
  split.
  - intros name Hname. unfold at_node_array, output_fields in *.
    repeat (apply elem_of_cons in Hname as [->|Hname]); [..|by apply elem_of_nil in Hname].
    + by rewrite Hl1.
    + by rewrite Hl2.
    + by rewrite Hl3.
    + by rewrite Hl4.
  - exists sk, b5. split; [by rewrite Hself|]. split.
    + unfold at_node_array. rewrite Hw, Hfinal. cbn. rewrite Hl4. cbn.
      apply lookup_insert_eq.
    + by eapply np_index_assign_bounds.
Qed.

Lemma completed_run_had_fields_and_sinks_in_range_witness :
  res (@run_one_step DocExample.landlab DocExample.fd) = Ok tt /\
  (forall name, name ∈ output_fields -> is_Some (at_node_array DocExample.fd name)) /\
  exists sk flags,
    sink (self (final (@run_one_step DocExample.landlab DocExample.fd))) = Some sk /\
    at_node_array (final (@run_one_step DocExample.landlab DocExample.fd))
      "flow__sink_flag" = Some flags /\
    Forall (fun j => - Z.of_nat (length (arr_data flags)) <= j
                     < Z.of_nat (length (arr_data flags))) sk.
Proof.
  assert (res (@run_one_step DocExample.landlab DocExample.fd) = Ok tt) as Hok.
  { vm_compute. reflexivity. }
  split; [exact Hok|].
  exact (completed_run_had_fields_and_sinks_in_range DocExample.landlab DocExample.fd Hok).
Defined.

(** ** One run after another *)

Lemma completed_run_in_sync (L : Landlab) (s : State) :
  res (run_one_step s) = Ok tt ->
  _bc_set_code (self (final (run_one_step s))) =
  bc_set_code (grid (world (final (run_one_step s)))).
Proof.
  intros Hok. apply run_one_step_ok in Hok as (Hc & _ & -> & _).
  destruct (direct_flow_frame (final (check_and_update_BCs s))) as [[Hg _] Hself].
  rewrite Hg, check_and_update_BCs_world.
  destruct Hself as [-> | [sk ->]]; cbn; by apply check_and_update_BCs_in_sync.
Qed.

(** X5: a run that follows a completed run, the grid's boundary conditions not
    having changed in between, does not call [updated_boundary_conditions]
    again: the refresh is made once per change of [bc_set_code]. *)
Theorem next_run_does_not_refresh (L : Landlab) (s : State) :
  res (run_one_step s) = Ok tt ->
  call_updated_boundary_conditions ∉ trace (run_one_step (final (run_one_step s))).
Proof.
  intros Hsync%completed_run_in_sync.
  set (s1 := final (run_one_step s)) in *.
  rewrite run_one_step_run, check_and_update_BCs_run.
  rewrite decide_False by (by intros ?).
  cbn. intros Hin. by apply direct_flow_trace_calls in Hin.
Qed.

Lemma next_run_does_not_refresh_witness :
  res (@run_one_step DocExample.landlab DocExample.fd) = Ok tt /\
  call_updated_boundary_conditions
    ∉ trace (@run_one_step DocExample.landlab
               (final (@run_one_step DocExample.landlab DocExample.fd))).
Proof.
  assert (res (@run_one_step DocExample.landlab DocExample.fd) = Ok tt) as Hok.
  { vm_compute. reflexivity. }
  split; [exact Hok|].
  exact (next_run_does_not_refresh DocExample.landlab DocExample.fd Hok).
Defined.

Lemma np_slice_assign_same_shape (a a' src : ndarray) :
  arr_dtype a' = arr_dtype a -> length (arr_data a') = length (arr_data a) ->
  np_slice_assign a' src = np_slice_assign a src.
Proof. intros Hd Hn. unfold np_slice_assign. by rewrite Hd, Hn. Qed.

Lemma np_slice_assign_again (a src b : ndarray) :
  np_slice_assign a src = Ok b -> np_slice_assign b src = Ok b.
Proof.
  intros Hb. destruct (np_slice_assign_shape _ _ _ Hb) as [Hd Hn].
  by rewrite (np_slice_assign_same_shape a b src).
Qed.

Lemma written_same (l : loc) (a : ndarray) (s : State) :
  heap (world s) !! l = Some a -> written l a s = s.
Proof. intros Ha. unfold written. by rewrite insert_id. Qed.

Lemma assign_node_field_again (name : string) (src a : ndarray) (l : loc) (s : State) :
  at_node (grid (world s)) !! name = Some l ->
  heap (world s) !! l = Some a ->
  np_slice_assign a src = Ok a ->
  assign_node_field name src s = mk_outcome (Ok tt) s [].
Proof.
  intros Hl Ha Hsame. rewrite assign_node_field_run, Hl, Ha, Hsame.
  by rewrite written_same.
Qed.

Lemma save_outputs_again r ss sk rl (s : State) (l1 l2 l3 l4 : loc)
    (b1 b2 b3 b4 b5 : ndarray) :
  at_node (grid (world s)) !! "flow__receiver_node" = Some l1 ->
  at_node (grid (world s)) !! "topographic__steepest_slope" = Some l2 ->
  at_node (grid (world s)) !! "flow__link_to_receiver_node" = Some l3 ->
  at_node (grid (world s)) !! "flow__sink_flag" = Some l4 ->
  heap (world s) !! l1 = Some b1 -> heap (world s) !! l2 = Some b2 ->
  heap (world s) !! l3 = Some b3 -> heap (world s) !! l4 = Some b5 ->
  np_slice_assign b1 (int_array r) = Ok b1 ->
  np_slice_assign b2 (float_array ss) = Ok b2 ->
  np_slice_assign b3 (int_array rl) = Ok b3 ->
  np_slice_assign b5 (np_zeros_like_bool r) = Ok b4 ->
  np_index_assign b4 sk (VBool true) = Ok b5 ->
  save_outputs r ss sk rl s = mk_outcome (Ok tt) s [].
Proof.
  intros Hl1 Hl2 Hl3 Hl4 H1 H2 H3 H4 Hb1 Hb2 Hb3 Hb4 Hb5. unfold save_outputs.
  rewrite run_seq, (assign_node_field_again _ _ b1 l1) by done. cbn.
  rewrite run_seq, (assign_node_field_again _ _ b2 l2) by done. cbn.
  rewrite run_seq, (assign_node_field_again _ _ b3 l3) by done. cbn.
  rewrite run_seq, assign_node_field_run, Hl4, H4, Hb4. cbn.
  rewrite assign_node_field_at_run. cbn. rewrite Hl4, lookup_insert_eq, Hb5.
  unfold written. cbn. by rewrite insert_insert_eq, insert_id.
Qed.

(** X6: running again changes nothing.  After a run that completes, a second
    run from the state it left completes and leaves that same state (the
    fields, [self.sink] and the cached code), provided the routed elevations
    are not one of the output arrays, the four output fields are four array
    objects, and the collaborators answer on the grid as written by the
    first run what they answered before (they do not read the output
    fields). *)
Theorem run_one_step_again (L : Landlab) (s : State) :
  res (run_one_step s) = Ok tt ->
  distinct_outputs (grid (world s)) ->
  ~ is_output_array (grid (world s)) (elevs (self (final (run_one_step s)))) ->
  (forall z, calc_grad_of_active_link (world (final (run_one_step s))) z
             = calc_grad_of_active_link (world s) z) ->
  status_at_node (world (final (run_one_step s))) = status_at_node (world s) ->
  (forall z al tl hd link_slope bl,
     flow_directions z al tl hd link_slope (world (final (run_one_step s))) bl
     = flow_directions z al tl hd link_slope (world s) bl) ->
  res (run_one_step (final (run_one_step s))) = Ok tt /\
  final (run_one_step (final (run_one_step s))) = final (run_one_step s).
Proof.
  intros Hok Hdist Helev Hcalc Hstat Hfd.
  pose proof (completed_run_in_sync _ s Hok) as Hsync.
  pose proof Hok as Hok'. apply run_one_step_ok in Hok' as (_ & Hd & Hfin & _).
  pose proof (check_and_update_BCs_world s) as Hw.
  set (s0 := final (check_and_update_BCs s)) in *.
  apply direct_flow_ok in Hd as (z & grad & st & r & ss & sk & rl & Hz & Hg & Hst & Hfdr & _
                                  & Hsave & Hdf).
  apply save_outputs_ok in Hsave
    as (l1 & l2 & l3 & l4 & a1 & a2 & a3 & a4 & b1 & b2 & b3 & b4 & b5 & Hsave).
  cbn zeta in Hsave. cbn in Hsave. rewrite Hw in Hsave, Hz, Hg, Hst, Hfdr, Hdf.
  destruct Hsave as (Hl1 & Hl2 & Hl3 & Hl4 & Ha1 & Hb1 & Ha2 & Hb2 & Ha3 & Hb3 & Ha4 & Hb4
                     & Hb5 & Hfinal).
  rewrite Hdf, Hfinal in Hfin. clear Hdf Hfinal.
  set (h5 := <[l4:=b5]> (<[l4:=b4]> (<[l3:=b3]> (<[l2:=b2]> (<[l1:=b1]>
               (heap (world s))))))) in *.
  set (s1 := mk_state (set_sink sk (self s0)) (mk_world (grid (world s)) h5)) in *.
  rewrite Hfin in *. clear Hfin. cbn in Helev, Hcalc, Hstat, Hfd, Hsync.
  assert (forall n1 n2 k1 k2, n1 ∈ output_fields -> n2 ∈ output_fields -> n1 ≠ n2 ->
            at_node (grid (world s)) !! n1 = Some k1 ->
            at_node (grid (world s)) !! n2 = Some k2 -> k1 ≠ k2) as Hne.
  { intros n1 n2 k1 k2 ?????. by eapply (distinct_outputs_ne _ n1 n2). }
  assert (l1 ≠ l2) by (eapply Hne; [| | |exact Hl1|exact Hl2]; [set_solver..|done]).
  assert (l1 ≠ l3) by (eapply Hne; [| | |exact Hl1|exact Hl3]; [set_solver..|done]).
  assert (l1 ≠ l4) by (eapply Hne; [| | |exact Hl1|exact Hl4]; [set_solver..|done]).
  assert (l2 ≠ l3) by (eapply Hne; [| | |exact Hl2|exact Hl3]; [set_solver..|done]).
  assert (l2 ≠ l4) by (eapply Hne; [| | |exact Hl2|exact Hl4]; [set_solver..|done]).
  assert (l3 ≠ l4) by (eapply Hne; [| | |exact Hl3|exact Hl4]; [set_solver..|done]).
  assert (forall name l, name ∈ output_fields ->
            at_node (grid (world s)) !! name = Some l -> l ≠ elevs (self s0)) as Hout.
  { intros name l Hname Hl ->. apply Helev. by exists name. }
  assert (l1 ≠ elevs (self s0)) by (eapply Hout; [|exact Hl1]; set_solver).
  assert (l2 ≠ elevs (self s0)) by (eapply Hout; [|exact Hl2]; set_solver).
  assert (l3 ≠ elevs (self s0)) by (eapply Hout; [|exact Hl3]; set_solver).
  assert (l4 ≠ elevs (self s0)) by (eapply Hout; [|exact Hl4]; set_solver).
  assert (h5 !! l1 = Some b1) as Hh1
    by (subst h5; by rewrite !lookup_insert_ne, lookup_insert_eq by done).
  assert (h5 !! l2 = Some b2) as Hh2
    by (subst h5; by rewrite !lookup_insert_ne, lookup_insert_eq by done).
  assert (h5 !! l3 = Some b3) as Hh3
    by (subst h5; by rewrite !lookup_insert_ne, lookup_insert_eq by done).
  assert (h5 !! l4 = Some b5) as Hh4 by (subst h5; by rewrite lookup_insert_eq).
  assert (h5 !! elevs (self s0) = Some z) as Hh0
    by (subst h5; by rewrite !lookup_insert_ne by done).
  assert (np_slice_assign b5 (np_zeros_like_bool r) = Ok b4) as Hb4'.
  { rewrite <- Hb4.
    destruct (np_slice_assign_shape _ _ _ Hb4) as [Hd4 Hn4].
    destruct (np_index_assign_shape _ _ _ _ Hb5) as [Hd5 Hn5].
    apply np_slice_assign_same_shape; congruence. }
  assert (run_one_step s1 =
          mk_outcome (Ok tt) s1
            [call_calc_grad_of_active_link z; get_status_at_node; get_status_at_node;
             call_flow_directions z (_active_links (self s0)) (_activelink_tail (self s0))
               (_activelink_head (self s0)) (PrimFloat.opp <$> grad) (baselevel_of st)])
    as ->; [|done].
  rewrite run_one_step_run, check_and_update_BCs_run.
  rewrite decide_False by (by intros ?). cbn.
  rewrite direct_flow_run. cbn. rewrite Hh0, Hcalc, Hg, Hstat, Hst, Hfd, Hfdr. cbn.
  rewrite (save_outputs_again r ss sk rl _ l1 l2 l3 l4 b1 b2 b3 b4 b5);
    eauto using np_slice_assign_again.
Qed.

Lemma doc_example_elevations_apart :
  ~ is_output_array (grid (world DocExample.fd))
      (elevs (self (final (@run_one_step DocExample.landlab DocExample.fd)))).
Proof.
  intros (name & Hin & Hl). unfold output_fields in Hin.
  repeat (apply elem_of_cons in Hin as [->|Hin]); [..|by apply elem_of_nil in Hin];
    vm_compute in Hl; congruence.
Qed.

Lemma run_one_step_again_witness :
  res (@run_one_step DocExample.landlab DocExample.fd) = Ok tt /\
  res (@run_one_step DocExample.landlab
         (final (@run_one_step DocExample.landlab DocExample.fd))) = Ok tt /\
  final (@run_one_step DocExample.landlab
           (final (@run_one_step DocExample.landlab DocExample.fd)))
  = final (@run_one_step DocExample.landlab DocExample.fd).
Proof.
  assert (res (@run_one_step DocExample.landlab DocExample.fd) = Ok tt) as Hok.
  { vm_compute. reflexivity. }
  split; [exact Hok|].
  refine (run_one_step_again DocExample.landlab DocExample.fd Hok
            doc_example_distinct_outputs doc_example_elevations_apart _ _ _).
  - intros z. reflexivity.
  - reflexivity.
  - intros z al tl hd link_slope bl. reflexivity.
Defined.

(** ** A grid without the receiver field *)

Lemma save_outputs_without_receiver r ss sk rl (s : State) :
  at_node (grid (world s)) !! "flow__receiver_node" = None ->
  res (save_outputs r ss sk rl s) ≠ Ok tt /\
  world (final (save_outputs r ss sk rl s)) = world s.
Proof.
  intros Hnone. unfold save_outputs.
  rewrite run_seq, assign_node_field_run, Hnone. by cbn.
Qed.

(** X7: on a grid that has no ['flow__receiver_node'] field the run does not
    complete, and it leaves the grid and every array exactly as they were:
    the first write is the one that fails, after the collaborators have been
    called. *)
Theorem run_without_receiver_field (L : Landlab) (s : State) :
  at_node (grid (world s)) !! "flow__receiver_node" = None ->
  res (run_one_step s) ≠ Ok tt /\
  world (final (run_one_step s)) = world s.
Proof.
  intros Hnone. rewrite run_one_step_run.
  pose proof (check_and_update_BCs_world s) as Hw.
  destruct (res (check_and_update_BCs s)); cbn; [|by split].
  set (s0 := final (check_and_update_BCs s)) in *.
  rewrite direct_flow_run.
  destruct (heap (world s0) !! elevs (self s0)) as [z|]; [|by split]. cbn zeta.
  destruct (calc_grad_of_active_link (world s0) z) as [grad|]; [|by split].
  destruct (status_at_node (world s0)) as [st|]; [|by split].
  destruct (flow_directions _ _ _ _ _ _ _) as [[[[r ss] sk] rl]|]; [|by split].
  cbn. rewrite <- Hw.
  apply (save_outputs_without_receiver r ss sk rl (mk_state (set_sink sk (self s0)) (world s0))).
  cbn. by rewrite Hw.
Qed.

Lemma run_without_receiver_field_witness :
  at_node (grid (world DocExample.unprepared)) !! "flow__receiver_node" = None /\
  res (@run_one_step DocExample.landlab DocExample.unprepared) ≠ Ok tt /\
  world (final (@run_one_step DocExample.landlab DocExample.unprepared))
  = world DocExample.unprepared.
Proof.
  assert (at_node (grid (world DocExample.unprepared)) !! "flow__receiver_node" = None)
    as Hnone.
  { vm_compute. reflexivity. }
  split; [exact Hnone|].
  exact (run_without_receiver_field DocExample.landlab DocExample.unprepared Hnone).
Defined.

(** ** The values of the flags *)

(** X8: after a run that completes, a ['flow__sink_flag'] field of dtype int8
    (the dtype the docstring prints) holds nothing but 0 and 1. *)
Theorem sink_flags_are_zero_or_one (L : Landlab) (s : State) (flags : ndarray) :
  res (run_one_step s) = Ok tt ->
  at_node_array (final (run_one_step s)) "flow__sink_flag" = Some flags ->
  arr_dtype flags = dt_int8 ->
  forall (i : nat) (v : value), arr_data flags !! i = Some v -> v = VInt 0 \/ v = VInt 1.
Proof.
  intros Hok Hflags Hdt i v Hv. apply run_one_step_ok in Hok as (_ & Hd & Hfin & _).
  rewrite Hfin in Hflags. clear Hfin.
  pose proof (check_and_update_BCs_world s) as Hw.
  set (s0 := final (check_and_update_BCs s)) in *.
  apply direct_flow_ok in Hd as (z & grad & st & r & ss & sk & rl & _ & _ & _ & _ & _
                                  & Hsave & Hdf).
  rewrite Hdf in Hflags. clear Hdf.
  apply save_outputs_ok in Hsave
    as (l1 & l2 & l3 & l4 & a1 & a2 & a3 & a4 & b1 & b2 & b3 & b4 & b5 & Hsave).
  cbn zeta in Hsave. cbn in Hsave.
  destruct Hsave as (_ & _ & _ & Hl4 & _ & _ & _ & _ & _ & _ & _ & Hb4 & Hb5 & Hfinal).
  unfold at_node_array in Hflags. rewrite Hfinal in Hflags. cbn in Hflags.
  rewrite Hl4 in Hflags. cbn in Hflags. rewrite lookup_insert_eq in Hflags.
  injection Hflags as <-.
  destruct (np_index_assign_shape _ _ _ _ Hb5) as [Hd5 _].
  destruct (np_slice_assign_shape _ _ _ Hb4) as [Hd4 _].
  assert (arr_dtype a4 = dt_int8) as Hd by congruence.
  unfold np_index_assign in Hb5. destruct (mapM _ sk) as [ps|]; [|done].
  injection Hb5 as <-. cbn in Hv. rewrite foldl_insert_lookup in Hv.
  destruct (decide (i ∈ ps)).
  - destruct (arr_data b4 !! i); [|done]. injection Hv as <-.
    right. by rewrite Hd4, Hd.
  - destruct (np_slice_assign_lookup _ _ _ _ _ Hb4 Hv) as (x & -> & Hx).
    assert (x = VBool false) as ->.
    { apply (zeros_all_false r). destruct Hx as [Hx| ->].
      - apply list_elem_of_lookup; eauto.
      - by apply list_elem_of_singleton. }
    left. by rewrite Hd.
Qed.

Lemma sink_flags_are_zero_or_one_witness :
  (res (@run_one_step DocExample.landlab DocExample.fd) = Ok tt /\
   arr_data DocExample.flow__sink_flag !! 4%nat = Some (VInt 0)) /\
  (VInt 0 = VInt 0 \/ VInt 0 = VInt 1).
Proof.
  assert (res (@run_one_step DocExample.landlab DocExample.fd) = Ok tt) as Hok.
  { vm_compute. reflexivity. }
  split; [by split|].
  refine (sink_flags_are_zero_or_one DocExample.landlab DocExample.fd
            DocExample.flow__sink_flag Hok _ _ 4%nat (VInt 0) _);
    try reflexivity; vm_compute; reflexivity.
Defined.
